(** * AI-autoshop voice service: webhook routes

    A shallow embedding of the webhook routes of the voice service
    (signature verification, call-ended processing, booking derivation,
    date/time parsing) together with the parts of the JavaScript runtime
    and of the SQL session the code relies on. *)

From Stdlib Require Import ZArith QArith Qabs List String Ascii Bool Lia
  DecimalString.
Import ListNotations.

Local Open Scope string_scope.
Local Open Scope Z_scope.

(* ================================================================== *)
(** * JavaScript values and strings *)
(* ================================================================== *)

Module JS.

(** Values that reach the handlers: JSON data and absent properties.
    Objects and arrays are kept opaque ([VObject] carries their JSON
    text); they are truthy and have no string methods. *)
Inductive value : Type :=
| VUndefined
| VNull
| VBool (b : bool)
| VNum (q : Q)
| VStr (s : string)
| VObject (repr : string).

(** ToBoolean. *)
Definition truthy (v : value) : bool :=
  match v with
  | VUndefined | VNull => false
  | VBool b => b
  | VNum q => negb (Qeq_bool q 0)
  | VStr s => negb (String.eqb s "")
  | VObject _ => true
  end.

(** [a || b]. *)
Definition or_else (a b : value) : value := if truthy a then a else b.

(** Outcome of evaluating code that may throw. *)
Inductive completion (A : Type) : Type :=
| Normal (a : A)
| Throw (msg : string).
Arguments Normal {A} a.
Arguments Throw {A} msg.

(** ** Code units

    Strings are sequences of code units below 256. *)

Definition code (c : ascii) : Z := Z.of_N (N_of_ascii c).

(** [\d] *)
Definition is_digit (c : ascii) : bool := (48 <=? code c) && (code c <=? 57).

(** [\s], restricted to code units below 256. *)
Definition is_space (c : ascii) : bool :=
  ((9 <=? code c) && (code c <=? 13)) || (code c =? 32) || (code c =? 160).

Definition digit_val (c : ascii) : Z := code c - 48.

(** String.prototype.toLowerCase on one code unit. *)
Definition lower (c : ascii) : ascii :=
  let n := code c in
  if ((65 <=? n) && (n <=? 90))
     || ((192 <=? n) && (n <=? 222) && negb (n =? 215))
  then ascii_of_N (Z.to_N (n + 32))
  else c.

Fixpoint toLowerCase (s : string) : string :=
  match s with
  | EmptyString => EmptyString
  | String c s' => String (lower c) (toLowerCase s')
  end.

(** [parseInt] on a string of decimal digits. *)
Fixpoint parseInt_acc (acc : Z) (s : string) : Z :=
  match s with
  | EmptyString => acc
  | String c s' => parseInt_acc (10 * acc + digit_val c) s'
  end.

Definition parseInt (s : string) : Z := parseInt_acc 0 s.

End JS.

(* ================================================================== *)
(** * The Date object *)
(* ================================================================== *)

Module JSDate.

(** A Date holds a time value, milliseconds since the epoch in UTC, or
    is an Invalid Date.  Local time is UTC shifted by a fixed offset
    [tza] (no daylight saving). *)
Inductive Date : Type :=
| InvalidDate
| TimeValue (t : Z).

Definition msPerDay : Z := 86400000.
Definition msPerHour : Z := 3600000.
Definition msPerMinute : Z := 60000.
Definition msPerSecond : Z := 1000.
Definition maxTime : Z := 8640000000000000.

Definition Day (t : Z) : Z := t / msPerDay.
Definition TimeWithinDay (t : Z) : Z := t mod msPerDay.

Definition DaysInYear (y : Z) : Z :=
  if negb (y mod 4 =? 0) then 365
  else if negb (y mod 100 =? 0) then 366
  else if negb (y mod 400 =? 0) then 365
  else 366.

Definition DayFromYear (y : Z) : Z :=
  365 * (y - 1970) + (y - 1969) / 4 - (y - 1901) / 100 + (y - 1601) / 400.

Definition YearFromDay (d : Z) : Z :=
  let y := 1970 + (d * 400) / 146097 in
  if d <? DayFromYear y then y - 1
  else if DayFromYear (y + 1) <=? d then y + 1
  else y.

Definition YearFromTime (t : Z) : Z := YearFromDay (Day t).

Definition InLeapYear (y : Z) : bool := DaysInYear y =? 366.

(** Days of the year before month [m] (0 = January). *)
Definition DaysBeforeMonth (leap : bool) (m : Z) : Z :=
  let l := if leap then 1 else 0 in
  match m with
  | 0 => 0
  | 1 => 31
  | 2 => 59 + l
  | 3 => 90 + l
  | 4 => 120 + l
  | 5 => 151 + l
  | 6 => 181 + l
  | 7 => 212 + l
  | 8 => 243 + l
  | 9 => 273 + l
  | 10 => 304 + l
  | _ => 334 + l
  end.

Definition DayWithinYear (t : Z) : Z := Day t - DayFromYear (YearFromTime t).

Definition MonthFromTime (t : Z) : Z :=
  let leap := InLeapYear (YearFromTime t) in
  let d := DayWithinYear t in
  if d <? DaysBeforeMonth leap 1 then 0
  else if d <? DaysBeforeMonth leap 2 then 1
  else if d <? DaysBeforeMonth leap 3 then 2
  else if d <? DaysBeforeMonth leap 4 then 3
  else if d <? DaysBeforeMonth leap 5 then 4
  else if d <? DaysBeforeMonth leap 6 then 5
  else if d <? DaysBeforeMonth leap 7 then 6
  else if d <? DaysBeforeMonth leap 8 then 7
  else if d <? DaysBeforeMonth leap 9 then 8
  else if d <? DaysBeforeMonth leap 10 then 9
  else if d <? DaysBeforeMonth leap 11 then 10
  else 11.

Definition DateFromTime (t : Z) : Z :=
  DayWithinYear t
  - DaysBeforeMonth (InLeapYear (YearFromTime t)) (MonthFromTime t) + 1.

Definition HourFromTime (t : Z) : Z := (t / msPerHour) mod 24.
Definition MinFromTime (t : Z) : Z := (t / msPerMinute) mod 60.

Definition MakeTime (h m s ms : Z) : Z :=
  h * msPerHour + m * msPerMinute + s * msPerSecond + ms.

(** Day number of day [dt] of month [m] (0-based, may overflow) of [y]. *)
Definition MakeDay (y m dt : Z) : Z :=
  let ym := y + m / 12 in
  let mn := m mod 12 in
  DayFromYear ym + DaysBeforeMonth (InLeapYear ym) mn + dt - 1.

Definition MakeDate (day time : Z) : Z := day * msPerDay + time.

Definition TimeClip (t : Z) : Date :=
  if Z.abs t <=? maxTime then TimeValue t else InvalidDate.

Definition LocalTime (tza t : Z) : Z := t + tza.
Definition UTC (tza t : Z) : Z := t - tza.

(** [d.getDate()]; [None] is NaN. *)
Definition getDate (tza : Z) (d : Date) : option Z :=
  match d with
  | InvalidDate => None
  | TimeValue t => Some (DateFromTime (LocalTime tza t))
  end.

(** [d.setDate(dt)] *)
Definition setDate (tza : Z) (d : Date) (dt : option Z) : Date :=
  match d, dt with
  | TimeValue t, Some n =>
      let l := LocalTime tza t in
      TimeClip (UTC tza (MakeDate (MakeDay (YearFromTime l) (MonthFromTime l) n)
                                  (TimeWithinDay l)))
  | _, _ => InvalidDate
  end.

(** [d.setHours(h, m, s, ms)] *)
Definition setHours (tza : Z) (d : Date) (h m s ms : Z) : Date :=
  match d with
  | InvalidDate => InvalidDate
  | TimeValue t =>
      let l := LocalTime tza t in
      TimeClip (UTC tza (MakeDate (Day l) (MakeTime h m s ms)))
  end.

(** [new Date("YYYY-MM-DD")] for the three numeric fields of a date-only
    string: the date at midnight UTC.  Months outside 1..12 and days
    outside 1..31 give an Invalid Date; a day beyond the end of its
    month (but at most 31) rolls into the next month, as in V8. *)
Definition parseDateOnly (y m d : Z) : Date :=
  if (1 <=? m) && (m <=? 12) && (1 <=? d) && (d <=? 31)
  then TimeClip (MakeDate (MakeDay y (m - 1) d) 0)
  else InvalidDate.

(** Calendar fields in local time: year, month (1-based), day, hour,
    minute. *)
Definition localFields (tza : Z) (d : Date) : option (Z * Z * Z * Z * Z) :=
  match d with
  | InvalidDate => None
  | TimeValue t =>
      let l := LocalTime tza t in
      Some (YearFromTime l, MonthFromTime l + 1, DateFromTime l,
            HourFromTime l, MinFromTime l)
  end.

End JSDate.

(* ================================================================== *)
(** * Date and time parsing *)
(* ================================================================== *)

Module DateTime.
Import JS JSDate.

(** The environment of one call: the clock reading of [new Date()] and
    the local offset from UTC, both in milliseconds. *)
Record Clock : Type := { now : Z; tza : Z }.

(** [new Date()] *)
Definition newDate (c : Clock) : Date := TimeValue (now c).

(** [/^\d{4}-\d{2}-\d{2}$/]: the three digit groups of a match. *)
Definition isoDateGroups (s : string) : option (string * string * string) :=
  match s with
  | String y1 (String y2 (String y3 (String y4 (String s1
      (String m1 (String m2 (String s2
        (String d1 (String d2 EmptyString))))))))) =>
      if is_digit y1 && is_digit y2 && is_digit y3 && is_digit y4
         && Ascii.eqb s1 "-" && is_digit m1 && is_digit m2
         && Ascii.eqb s2 "-" && is_digit d1 && is_digit d2
      then Some (String y1 (String y2 (String y3 (String y4 EmptyString))),
                 String m1 (String m2 EmptyString),
                 String d1 (String d2 EmptyString))
      else None
  | _ => None
  end.

Definition matchesIsoDate (s : string) : bool :=
  match isoDateGroups s with Some _ => true | None => false end.

(** [new Date(s)] on a string of the date-only form, the only form the
    code passes to it. *)
Definition newDateOfString (s : string) : Date :=
  match isoDateGroups s with
  | Some (y, m, d) => parseDateOnly (parseInt y) (parseInt m) (parseInt d)
  | None => InvalidDate
  end.

Fixpoint skipSpaces (s : string) : string :=
  match s with
  | String c s' => if is_space c then skipSpaces s' else s
  | EmptyString => s
  end.

(** [\s*(am|pm)?] under the [i] flag, after the minutes: the third
    group, when it takes part in the match. *)
Definition meridiemGroup (s : string) : option string :=
  match skipSpaces s with
  | String a (String b _) =>
      if (Ascii.eqb (lower a) "a" || Ascii.eqb (lower a) "p")
         && Ascii.eqb (lower b) "m"
      then Some (String a (String b EmptyString))
      else None
  | _ => None
  end.

(** [(\d{1,2}):(\d{2})\s*(am|pm)?] tried at the start of [s]: two hour
    digits first, then one. *)
Definition timeMatchHere (s : string)
  : option (string * string * option string) :=
  let one :=
    match s with
    | String h1 (String c (String m1 (String m2 rest))) =>
        if is_digit h1 && Ascii.eqb c ":" && is_digit m1 && is_digit m2
        then Some (String h1 EmptyString, String m1 (String m2 EmptyString),
                   meridiemGroup rest)
        else None
    | _ => None
    end in
  match s with
  | String h1 (String h2 (String c (String m1 (String m2 rest)))) =>
      if is_digit h1 && is_digit h2 && Ascii.eqb c ":"
         && is_digit m1 && is_digit m2
      then Some (String h1 (String h2 EmptyString),
                 String m1 (String m2 EmptyString),
                 meridiemGroup rest)
      else one
  | _ => one
  end.

(** [time.match(/(\d{1,2}):(\d{2})\s*(am|pm)?/i)]: the leftmost match. *)
Fixpoint timeMatch (s : string) : option (string * string * option string) :=
  match timeMatchHere s with
  | Some g => Some g
  | None =>
      match s with
      | EmptyString => None
      | String _ s' => timeMatch s'
      end
  end.

(** [timeMatch[3] && timeMatch[3].toLowerCase() === w] *)
Definition groupIs (g : option string) (w : string) : bool :=
  match g with
  | Some x => truthy (VStr x) && String.eqb (toLowerCase x) w
  | None => false
  end.

(** Tomorrow at 10 AM: the default of the first branch and of the
    [catch] block. *)
Definition tomorrowAtTen (c : Clock) : Date :=
  let tomorrow := newDate c in
  let tomorrow :=
    setDate (tza c) tomorrow (option_map (Z.add 1) (getDate (tza c) tomorrow)) in
  setHours (tza c) tomorrow 10 0 0 0.

(** The date block of the [try] body: the value of [targetDate] after
    it.  [date.match] throws when [date] is not a string. *)
Definition targetDateOf (c : Clock) (date : value) : completion Date :=
  match date with
  | VStr d =>
      let targetDate := newDate c in
      if matchesIsoDate d then Normal (newDateOfString d)
      else if String.eqb (toLowerCase d) "tomorrow" then
        Normal (setDate (tza c) targetDate
                        (option_map (Z.add 1) (getDate (tza c) targetDate)))
      else if String.eqb (toLowerCase d) "today" then Normal targetDate
      else
        Normal (setDate (tza c) targetDate
                        (option_map (Z.add 1) (getDate (tza c) targetDate)))
  | _ => Throw "date.match is not a function"
  end.

(** The time block: the values of [hour] and [minute] after it.
    [time.match] throws when [time] is truthy and not a string. *)
Definition hourMinuteOf (time : value) : completion (Z * Z) :=
  let hour := 10 in
  let minute := 0 in
  if truthy time then
    match time with
    | VStr t =>
        match timeMatch t with
        | Some (g1, g2, g3) =>
            let hour := parseInt g1 in
            let minute := parseInt g2 in
            let hour :=
              if groupIs g3 "pm" && (hour <? 12) then hour + 12 else hour in
            let hour :=
              if groupIs g3 "am" && (hour =? 12) then 0 else hour in
            Normal (hour, minute)
        | None => Normal (hour, minute)
        end
    | _ => Throw "time.match is not a function"
    end
  else Normal (hour, minute).

(** The body of the [try] block. *)
Definition parseDateTimeBody (c : Clock) (date time : value)
  : completion Date :=
  match targetDateOf c date with
  | Throw e => Throw e
  | Normal targetDate =>
      match hourMinuteOf time with
      | Throw e => Throw e
      | Normal (hour, minute) =>
          Normal (setHours (tza c) targetDate hour minute 0 0)
      end
  end.

Definition parseDateTime (c : Clock) (date time : value) : Date :=
  if negb (truthy date) then tomorrowAtTen c
  else
    match parseDateTimeBody c date time with
    | Normal d => d
    | Throw _ => tomorrowAtTen c
    end.

(** ** Vocabulary of the specification *)

(** The day number of today in local time. *)
Definition today (c : Clock) : Z := Day (LocalTime (tza c) (now c)).

(** The instant at which local clocks show [h]:[m] on day [day]. *)
Definition localInstant (c : Clock) (day h m : Z) : Date :=
  TimeValue (UTC (tza c) (MakeDate day (MakeTime h m 0 0))).

(** The clock is far from the ends of the range of Date. *)
Definition clockInRange (c : Clock) : Prop :=
  Z.abs (now c) + 2 * Z.abs (tza c) + 8 * msPerDay <= maxTime.

(** 12-hour to 24-hour: 12pm is 12, 12am is 0, N pm is N+12 below 12. *)
Definition to24 (h : Z) (meridiem : string) : Z :=
  if String.eqb (toLowerCase meridiem) "pm" then (if h <? 12 then h + 12 else h)
  else if String.eqb (toLowerCase meridiem) "am" then (if h =? 12 then 0 else h)
  else h.

Fixpoint allOf (p : ascii -> bool) (s : string) : bool :=
  match s with
  | EmptyString => true
  | String c s' => p c && allOf p s'
  end.

(** One or two digits. *)
Definition isHourText (s : string) : bool :=
  allOf is_digit s && ((String.length s =? 1)%nat || (String.length s =? 2)%nat).

(** Two digits. *)
Definition isMinuteText (s : string) : bool :=
  allOf is_digit s && (String.length s =? 2)%nat.

(** Nothing, or am or pm in any case. *)
Definition isMeridiemText (s : string) : bool :=
  String.eqb s "" || String.eqb (toLowerCase s) "am"
  || String.eqb (toLowerCase s) "pm".

(** A reading of the clock used in the examples: 2025-11-02 10:17 UTC. *)
Definition sampleNow : Z := 1762078620000.
Definition utcClock : Clock := {| now := sampleNow; tza := 0 |}.
(** The same instant on a server five hours west of UTC. *)
Definition westClock : Clock := {| now := sampleNow; tza := -18000000 |}.

End DateTime.

(* ================================================================== *)
(** * Webhook signature verification *)
(* ================================================================== *)

Module Signature.
Import JS.

(** JavaScript numbers as far as the freshness check needs them; finite
    numbers are exact rationals. *)
Inductive number : Type :=
| NaN
| PosInf
| NegInf
| Fin (q : Q).

Definition num_sub (a b : number) : number :=
  match a, b with
  | NaN, _ | _, NaN => NaN
  | Fin x, Fin y => Fin (x - y)
  | Fin _, PosInf => NegInf
  | Fin _, NegInf => PosInf
  | PosInf, PosInf => NaN
  | PosInf, _ => PosInf
  | NegInf, NegInf => NaN
  | NegInf, _ => NegInf
  end.

(** [Math.abs] *)
Definition num_abs (a : number) : number :=
  match a with
  | NaN => NaN
  | PosInf | NegInf => PosInf
  | Fin x => Fin (Qabs.Qabs x)
  end.

(** [a > b] *)
Definition num_gt (a b : number) : bool :=
  match a, b with
  | NaN, _ | _, NaN => false
  | PosInf, PosInf => false
  | PosInf, _ => true
  | _, PosInf => false
  | NegInf, _ => false
  | Fin _, NegInf => true
  | Fin x, Fin y => negb (Qle_bool x y)
  end.

(** What the code takes from the runtime: the HMAC of the [crypto]
    module (key, message, hex digest), [JSON.stringify] on request
    bodies, and the string-to-number coercion applied by [now -
    timestamp]. *)
Record Runtime (Body : Type) : Type := {
  hmacSha256Hex : string -> string -> string;
  JSON_stringify : Body -> string;
  ToNumber : string -> number
}.
Arguments hmacSha256Hex {Body} _ _ _.
Arguments JSON_stringify {Body} _ _.
Arguments ToNumber {Body} _ _.

(** [req.headers[...]]: [None] when the header is not sent. *)
Record Request (Body : Type) : Type := {
  x_vapi_signature : option string;
  x_vapi_timestamp : option string;
  body : Body
}.
Arguments x_vapi_signature {Body} _.
Arguments x_vapi_timestamp {Body} _.
Arguments body {Body} _.

(** [!h] on a header value. *)
Definition missing (h : option string) : bool :=
  match h with
  | None => true
  | Some s => negb (truthy (VStr s))
  end.

Definition headerText (h : option string) : string :=
  match h with Some s => s | None => "undefined" end.

Definition errMissing : string := "Missing signature or timestamp".
Definition errTooOld : string := "Webhook timestamp too old".
Definition errInvalid : string := "Invalid signature".
Definition errNoKey : string := "The key argument must be of type string".

Section Verify.
Context {Body : Type} (rt : Runtime Body).

(** The signed text. *)
Definition payload (timestamp : string) (b : Body) : string :=
  (timestamp ++ "." ++ JSON_stringify rt b)%string.

(** [nowMs] is [Date.now()]; [secret] is
    [process.env.VAPI_WEBHOOK_SECRET], [None] when the variable is not
    set, and then [createHmac] throws. *)
Definition verifyVapiSignature (nowMs : Z) (secret : option string)
    (req : Request Body) : completion bool :=
  let signature := x_vapi_signature req in
  let timestamp := x_vapi_timestamp req in
  if missing signature || missing timestamp then Throw errMissing
  else
    let now := nowMs / 1000 in
    if num_gt (num_abs (num_sub (Fin (inject_Z now))
                                (ToNumber rt (headerText timestamp))))
              (Fin (inject_Z 300))
    then Throw errTooOld
    else
      match secret with
      | None => Throw errNoKey
      | Some key =>
          let expectedSignature :=
            hmacSha256Hex rt key (payload (headerText timestamp) (body req)) in
          if negb (String.eqb (headerText signature) expectedSignature)
          then Throw errInvalid
          else Normal true
      end.

End Verify.

(** ** Vocabulary of the specification *)

(** A header that was not sent, or sent empty. *)
Definition headerAbsent (h : option string) : Prop :=
  h = None \/ h = Some "".

(** [|now - t| > secs], for the number [t] a timestamp header stands
    for; nothing is more than [secs] away from a header that is not a
    number. *)
Definition differsByMoreThan (secs now : Z) (t : number) : Prop :=
  match t with
  | NaN => False
  | PosInf | NegInf => True
  | Fin q => (inject_Z secs < Qabs (inject_Z now - q))%Q
  end.

(** The timestamp header of [req] read as a number. *)
Definition stamp {Body} (rt : Runtime Body) (req : Request Body) : number :=
  ToNumber rt (headerText (x_vapi_timestamp req)).

(** The digest the sender of [req] has to present: the hex HMAC-SHA256
    of timestamp, ".", and the serialised body. *)
Definition digest {Body} (rt : Runtime Body) (key : string)
    (req : Request Body) : string :=
  hmacSha256Hex rt key
    (payload rt (headerText (x_vapi_timestamp req)) (body req)).

Definition sampleRequest (sig ts : option string) (b : string)
  : Request string :=
  {| x_vapi_signature := sig; x_vapi_timestamp := ts; body := b |}.

(** A stand-in runtime for instantiating the statements: bodies are
    their own JSON text, the digest is the key followed by the message,
    and only strings of decimal digits are numbers. *)
Definition sampleRuntime : Runtime string := {|
  hmacSha256Hex := fun key msg => (key ++ "/" ++ msg)%string;
  JSON_stringify := fun b => b;
  ToNumber := fun s =>
    match s with
    | EmptyString => Fin 0
    | _ => if (fix digits (x : string) : bool :=
                 match x with
                 | EmptyString => true
                 | String c x' => is_digit c && digits x'
                 end) s
           then Fin (inject_Z (parseInt s)) else NaN
    end
|}.

(** ** Raw bodies *)

(** The white space JSON allows between tokens. *)
Definition is_json_space (c : ascii) : bool :=
  (code c =? 32) || (code c =? 9) || (code c =? 10) || (code c =? 13).

Definition doubleQuote : ascii := "034"%char.
Definition backslash : ascii := "092"%char.

(** [JSON.stringify(JSON.parse(raw))] as far as white space goes: the
    white space between the tokens of the raw text is gone, that inside
    a string literal stays.  [inString] and [escaped] say where in a
    literal the scan is. *)
Fixpoint reserialise (inString escaped : bool) (raw : string) : string :=
  match raw with
  | EmptyString => EmptyString
  | String c rest =>
      if inString then
        String c (reserialise (escaped || negb (Ascii.eqb c doubleQuote))
                              (negb escaped && Ascii.eqb c backslash) rest)
      else if is_json_space c then reserialise false false rest
      else String c (reserialise (Ascii.eqb c doubleQuote) false rest)
  end.

(** A stand-in runtime over raw bodies: a request body is given by the
    text the sender put on the wire, from which the body parser built
    [req.body]; the digest and the numbers are those of
    [sampleRuntime]. *)
Definition rawBodyRuntime : Runtime string := {|
  hmacSha256Hex := hmacSha256Hex sampleRuntime;
  JSON_stringify := reserialise false false;
  ToNumber := ToNumber sampleRuntime
|}.

(** The raw bodies [{"a":1}] and [{"a": 1}]. *)
Definition compactBody : string :=
  "{" ++ String doubleQuote "a" ++ String doubleQuote ":1}".
Definition spacedBody : string :=
  "{" ++ String doubleQuote "a" ++ String doubleQuote ": 1}".

End Signature.

(* ================================================================== *)
(** * Call-ended processing and booking creation *)
(* ================================================================== *)

Module Webhook.
Import JS JSDate DateTime.

(** ** Data of a call-ended event *)

(** [analysis.structuredData]; an absent property is [VUndefined]. *)
Module StructuredData.
Record t : Type := {
  customer_name : value;
  customer_phone : value;
  customer_email : value;
  vehicle_make : value;
  vehicle_model : value;
  vehicle_year : value;
  issue_summary : value;
  issue_category : value;
  urgency : value;
  preferred_date : value;
  preferred_time : value;
  booking_confirmed : value
}.
End StructuredData.

(** [analysis?.sentiment]: undefined or null, or a value whose [label]
    property reads as [label] ([VUndefined] when it has none). *)
Inductive Sentiment : Type :=
| NoSentiment
| SentimentWith (label : value).

(** [sentiment?.label] *)
Definition sentimentLabel (s : Sentiment) : value :=
  match s with
  | NoSentiment => VUndefined
  | SentimentWith l => l
  end.

(** The argument of [processCallEnded]. *)
Module CallEnded.
Record t : Type := {
  callId : value;
  workshopId : value;
  vapiCallId : value;
  duration : value;
  cost : value;
  endReason : value;
  recording : value;
  transcript : value;
  structuredData : StructuredData.t;
  sentiment : Sentiment
}.
End CallEnded.

(** The argument of [createBooking]. *)
Module BookingData.
Record t : Type := {
  callId : value;
  workshopId : value;
  customerName : value;
  customerPhone : value;
  customerEmail : value;
  vehicleMake : value;
  vehicleModel : value;
  vehicleYear : value;
  issueSummary : value;
  issueCategory : value;
  urgency : value;
  preferredDate : value;
  preferredTime : value
}.
End BookingData.

(** ** Tables *)

Module Calls.
Record row : Type := {
  id : value;
  workshop_id : value;
  from_number : value;
  to_number : value;
  vapi_call_id : value;
  status : string;
  started_at : option Z;
  answered_at : option Z;
  ended_at : option Z;
  duration_seconds : value;
  cost_usd : value;
  recording_url : value;
  transcript : value
}.
End Calls.

Module CallAnalysis.
Record row : Type := {
  call_id : value;
  structured_data : StructuredData.t;
  customer_name : value;
  customer_phone : value;
  vehicle_make : value;
  vehicle_model : value;
  issue_keywords : value;
  sentiment : value;
  booking_created : value
}.
End CallAnalysis.

Module Customers.
Record row : Type := {
  id : Z;
  workshop_id : value;
  name : value;
  phone : value;
  email : value
}.
End Customers.

Module Vehicles.
Record row : Type := {
  id : Z;
  customer_id : Z;
  make : value;
  model : value;
  year : value
}.
End Vehicles.

Module Bookings.
Record row : Type := {
  id : Z;
  workshop_id : value;
  customer_id : Z;
  vehicle_id : option Z;
  call_id : value;
  scheduled_at : Date;
  issue_summary : value;
  issue_category : value;
  urgency : value;
  status : string
}.
End Bookings.

Record Tables : Type := {
  calls : list Calls.row;
  call_analysis : list CallAnalysis.row;
  customers : list Customers.row;
  vehicles : list Vehicles.row;
  bookings : list Bookings.row
}.

(** A query parameter as the driver sends it: [undefined] becomes
    NULL. *)
Definition param (v : value) : value :=
  match v with
  | VUndefined => VNull
  | _ => v
  end.

(** SQL [=] in a WHERE clause: a comparison with NULL selects nothing.
    Values are compared within one JavaScript type. *)
Definition sql_eq (a b : value) : bool :=
  match a, b with
  | VBool x, VBool y => Bool.eqb x y
  | VNum x, VNum y => Qeq_bool x y
  | VStr x, VStr y => String.eqb x y
  | VObject x, VObject y => String.eqb x y
  | _, _ => false
  end.

(** ** Statements and effects *)

Inductive Stmt : Type :=
| Begin
| Commit
| Rollback
| UpdateCallEnded (status : string)
                  (duration cost recording transcript callId : value)
| InsertCallAnalysis (r : CallAnalysis.row)
| SelectCustomer (workshopId phone : value)
| InsertCustomer (workshopId name phone email : value)
| InsertVehicle (customerId : Z) (make model year : value)
| InsertBooking (workshopId : value) (customerId : Z) (vehicleId : option Z)
                (callId : value) (scheduledAt : Date)
                (issueSummary issueCategory urgency : value) (status : string)
| MarkBookingCreated (callId : value).

(** The body of the POST to [/api/bookings/notify]. *)
Module Notification.
Record t : Type := {
  bookingId : Z;
  workshopId : value;
  customerId : Z;
  customerEmail : value;
  scheduledAt : Date
}.
End Notification.

Inductive Level : Type := Log | Warn | Error.

(** What one invocation does to the outside, in order. *)
Inductive Event : Type :=
| EvConnect (ok : bool)
| EvQuery (s : Stmt) (ok : bool)
| EvPost (n : Notification.t) (ok : bool)
| EvConsole (l : Level) (msg : string)
| EvRelease.

(** What the code does not decide: the clock, which statements the
    database rejects (constraint violations and the like, depending on
    the tables as the session sees them), whether the notification
    service answers with an error, and whether the pool hands out a
    client. *)
Record Env : Type := {
  clock : Clock;
  stmtFails : Tables -> Stmt -> bool;
  postFails : Notification.t -> bool;
  connectFails : bool
}.

(** The committed tables, the uncommitted view of the open transaction
    of the client (if any), the id sequence, and the trace so far. *)
Record State : Type := {
  database : Tables;
  txn : option Tables;
  nextId : Z;
  trace : list Event
}.

Definition M (A : Type) : Type := State -> State * completion A.

Definition ret {A} (a : A) : M A := fun st => (st, Normal a).

Definition bind {A B} (m : M A) (k : A -> M B) : M B :=
  fun st =>
    match m st with
    | (st', Normal a) => k a st'
    | (st', Throw e) => (st', Throw e)
    end.

Definition throw {A} (e : string) : M A := fun st => (st, Throw e).

(** [try { m } catch (error) { h error }] *)
Definition tryCatch {A} (m : M A) (h : string -> M A) : M A :=
  fun st =>
    match m st with
    | (st', Normal a) => (st', Normal a)
    | (st', Throw e) => h e st'
    end.

(** [try { m } finally { f }], for an [f] that does not throw. *)
Definition tryFinally {A} (m : M A) (f : State -> State) : M A :=
  fun st => let (st', r) := m st in (f st', r).

Notation "x <- m ;; k" := (bind m (fun x => k))
  (at level 61, m at next level, right associativity).
Notation "m ;; k" := (bind m (fun _ => k))
  (at level 61, right associativity).

Definition record (e : Event) (st : State) : State :=
  {| database := database st; txn := txn st; nextId := nextId st;
     trace := trace st ++ [e] |}.

Definition console (l : Level) (msg : string) : M unit :=
  fun st => (record (EvConsole l msg) st, Normal tt).

(** The tables a statement of the client reads and writes. *)
Definition view (st : State) : Tables :=
  match txn st with
  | Some w => w
  | None => database st
  end.

(** Outside a transaction a statement commits on its own. *)
Definition setView (t : Tables) (st : State) : State :=
  match txn st with
  | Some _ => {| database := database st; txn := Some t;
                 nextId := nextId st; trace := trace st |}
  | None => {| database := t; txn := None;
               nextId := nextId st; trace := trace st |}
  end.

Definition errQuery : string := "query failed".
Definition errConnect : string := "connection failed".
Definition errPost : string := "Request failed".

(** [client.query(...)]: a rejected statement changes nothing and
    throws. *)
Definition query {A} (E : Env) (s : Stmt) (run : State -> State * A) : M A :=
  fun st =>
    if stmtFails E (view st) s
    then (record (EvQuery s false) st, Throw errQuery)
    else let (st', a) := run (record (EvQuery s true) st) in (st', Normal a).

(** ** The statements the code issues *)

Definition clientBegin (E : Env) : M unit :=
  query E Begin (fun st =>
    (match txn st with
     | None => {| database := database st; txn := Some (database st);
                  nextId := nextId st; trace := trace st |}
     | Some _ => st
     end, tt)).

Definition clientCommit (E : Env) : M unit :=
  query E Commit (fun st =>
    (match txn st with
     | Some w => {| database := w; txn := None;
                    nextId := nextId st; trace := trace st |}
     | None => st
     end, tt)).

Definition clientRollback (E : Env) : M unit :=
  query E Rollback (fun st =>
    ({| database := database st; txn := None;
        nextId := nextId st; trace := trace st |}, tt)).

Definition takeId (st : State) : State :=
  {| database := database st; txn := txn st;
     nextId := nextId st + 1; trace := trace st |}.

(** [UPDATE calls SET status = $1, ended_at = NOW(), ... WHERE id = $6] *)
Definition updateCallEnded (E : Env) (status : string)
    (duration cost recording transcript callId : value) : M unit :=
  query E (UpdateCallEnded status duration cost recording transcript callId)
    (fun st =>
       let t := view st in
       (setView
          {| calls :=
               map (fun r =>
                      if sql_eq (Calls.id r) (param callId) then
                        {| Calls.id := Calls.id r;
                           Calls.workshop_id := Calls.workshop_id r;
                           Calls.from_number := Calls.from_number r;
                           Calls.to_number := Calls.to_number r;
                           Calls.vapi_call_id := Calls.vapi_call_id r;
                           Calls.status := status;
                           Calls.started_at := Calls.started_at r;
                           Calls.answered_at := Calls.answered_at r;
                           Calls.ended_at := Some (now (clock E));
                           Calls.duration_seconds := param duration;
                           Calls.cost_usd := param cost;
                           Calls.recording_url := param recording;
                           Calls.transcript := param transcript |}
                      else r) (calls t);
             call_analysis := call_analysis t;
             customers := customers t;
             vehicles := vehicles t;
             bookings := bookings t |} st, tt)).

(** [INSERT INTO call_analysis (...) VALUES (...)] *)
Definition insertCallAnalysis (E : Env) (r : CallAnalysis.row) : M unit :=
  query E (InsertCallAnalysis r)
    (fun st =>
       let t := view st in
       (setView
          {| calls := calls t;
             call_analysis := call_analysis t ++ [r];
             customers := customers t;
             vehicles := vehicles t;
             bookings := bookings t |} st, tt)).

(** [SELECT * FROM customers WHERE workshop_id = $1 AND phone = $2] *)
Definition selectCustomer (E : Env) (workshopId phone : value)
  : M (list Customers.row) :=
  query E (SelectCustomer workshopId phone)
    (fun st =>
       (st, filter (fun c => sql_eq (Customers.workshop_id c) (param workshopId)
                             && sql_eq (Customers.phone c) (param phone))
                   (customers (view st)))).

(** [INSERT INTO customers (...) VALUES (...) RETURNING id] *)
Definition insertCustomer (E : Env) (workshopId name phone email : value)
  : M Z :=
  query E (InsertCustomer workshopId name phone email)
    (fun st =>
       let t := view st in
       let i := nextId st in
       (takeId (setView
          {| calls := calls t;
             call_analysis := call_analysis t;
             customers := customers t ++
               [{| Customers.id := i;
                   Customers.workshop_id := param workshopId;
                   Customers.name := param name;
                   Customers.phone := param phone;
                   Customers.email := param email |}];
             vehicles := vehicles t;
             bookings := bookings t |} st), i)).

(** [INSERT INTO vehicles (...) VALUES (...) RETURNING id] *)
Definition insertVehicle (E : Env) (customerId : Z) (make model year : value)
  : M Z :=
  query E (InsertVehicle customerId make model year)
    (fun st =>
       let t := view st in
       let i := nextId st in
       (takeId (setView
          {| calls := calls t;
             call_analysis := call_analysis t;
             customers := customers t;
             vehicles := vehicles t ++
               [{| Vehicles.id := i;
                   Vehicles.customer_id := customerId;
                   Vehicles.make := param make;
                   Vehicles.model := param model;
                   Vehicles.year := param year |}];
             bookings := bookings t |} st), i)).

(** [INSERT INTO bookings (...) VALUES (...) RETURNING *] *)
Definition insertBooking (E : Env) (workshopId : value) (customerId : Z)
    (vehicleId : option Z) (callId : value) (scheduledAt : Date)
    (issueSummary issueCategory urgency : value) (status : string)
  : M Bookings.row :=
  query E (InsertBooking workshopId customerId vehicleId callId scheduledAt
                         issueSummary issueCategory urgency status)
    (fun st =>
       let t := view st in
       let b := {| Bookings.id := nextId st;
                   Bookings.workshop_id := param workshopId;
                   Bookings.customer_id := customerId;
                   Bookings.vehicle_id := vehicleId;
                   Bookings.call_id := param callId;
                   Bookings.scheduled_at := scheduledAt;
                   Bookings.issue_summary := param issueSummary;
                   Bookings.issue_category := param issueCategory;
                   Bookings.urgency := param urgency;
                   Bookings.status := status |} in
       (takeId (setView
          {| calls := calls t;
             call_analysis := call_analysis t;
             customers := customers t;
             vehicles := vehicles t;
             bookings := bookings t ++ [b] |} st), b)).

(** [UPDATE call_analysis SET booking_created = true WHERE call_id = $1] *)
Definition markBookingCreated (E : Env) (callId : value) : M unit :=
  query E (MarkBookingCreated callId)
    (fun st =>
       let t := view st in
       (setView
          {| calls := calls t;
             call_analysis :=
               map (fun r =>
                      if sql_eq (CallAnalysis.call_id r) (param callId) then
                        {| CallAnalysis.call_id := CallAnalysis.call_id r;
                           CallAnalysis.structured_data :=
                             CallAnalysis.structured_data r;
                           CallAnalysis.customer_name :=
                             CallAnalysis.customer_name r;
                           CallAnalysis.customer_phone :=
                             CallAnalysis.customer_phone r;
                           CallAnalysis.vehicle_make :=
                             CallAnalysis.vehicle_make r;
                           CallAnalysis.vehicle_model :=
                             CallAnalysis.vehicle_model r;
                           CallAnalysis.issue_keywords :=
                             CallAnalysis.issue_keywords r;
                           CallAnalysis.sentiment := CallAnalysis.sentiment r;
                           CallAnalysis.booking_created := VBool true |}
                      else r) (call_analysis t);
             customers := customers t;
             vehicles := vehicles t;
             bookings := bookings t |} st, tt)).

(** [axios.post(.../api/bookings/notify, n)]: a network error or a
    status outside 2xx throws. *)
Definition axiosPost (E : Env) (n : Notification.t) : M unit :=
  fun st =>
    if postFails E n
    then (record (EvPost n false) st, Throw errPost)
    else (record (EvPost n true) st, Normal tt).

(** [getClient()] *)
Definition getClient (E : Env) : M unit :=
  fun st =>
    if connectFails E
    then (record (EvConnect false) st, Throw errConnect)
    else (record (EvConnect true) st, Normal tt).

(** [client.release()] *)
Definition release (st : State) : State := record EvRelease st.

(** ** createBooking *)

Definition createBooking (E : Env) (data : BookingData.t) : M Bookings.row :=
  let callId := BookingData.callId data in
  let workshopId := BookingData.workshopId data in
  let customerName := BookingData.customerName data in
  let customerPhone := BookingData.customerPhone data in
  let customerEmail := BookingData.customerEmail data in
  let vehicleMake := BookingData.vehicleMake data in
  let vehicleModel := BookingData.vehicleModel data in
  let vehicleYear := BookingData.vehicleYear data in
  tryCatch
    ((* 1. Find or create customer *)
     customerResult <- selectCustomer E workshopId customerPhone ;;
     customerId <-
       match customerResult with
       | [] =>
           newCustomer <- insertCustomer E workshopId customerName
                                         customerPhone customerEmail ;;
           console Log "Created new customer" ;;
           ret newCustomer
       | c :: _ => ret (Customers.id c)
       end ;;
     (* 2. Create vehicle if provided *)
     vehicleId <-
       (if truthy vehicleMake && truthy vehicleModel then
          vehicleResult <- insertVehicle E customerId vehicleMake
                                         vehicleModel vehicleYear ;;
          console Log "Created vehicle" ;;
          ret (Some vehicleResult)
        else ret None) ;;
     (* 3. Parse scheduled datetime *)
     let scheduledAt :=
       parseDateTime (clock E) (BookingData.preferredDate data)
                     (BookingData.preferredTime data) in
     (* 4. Create booking *)
     booking <- insertBooking E workshopId customerId vehicleId callId
                              scheduledAt (BookingData.issueSummary data)
                              (BookingData.issueCategory data)
                              (BookingData.urgency data) "confirmed" ;;
     console Log "Created booking" ;;
     (* 5. Update call_analysis to mark booking created *)
     markBookingCreated E callId ;;
     (* 6. Send to booking service for email notifications *)
     tryCatch
       (axiosPost E {| Notification.bookingId := Bookings.id booking;
                       Notification.workshopId := workshopId;
                       Notification.customerId := customerId;
                       Notification.customerEmail := customerEmail;
                       Notification.scheduledAt := scheduledAt |})
       (fun _ => console Warn "Failed to notify booking service") ;;
     ret booking)
    (fun error =>
       console Error "Error creating booking" ;;
       throw error).

(** ** processCallEnded *)

Definition processCallEnded (E : Env) (data : CallEnded.t) : M unit :=
  let callId := CallEnded.callId data in
  let workshopId := CallEnded.workshopId data in
  let structuredData := CallEnded.structuredData data in
  getClient E ;;
  tryFinally
    (tryCatch
       ((* Start transaction *)
        clientBegin E ;;
        (* 1. Update call record *)
        updateCallEnded E "completed" (CallEnded.duration data)
                        (CallEnded.cost data) (CallEnded.recording data)
                        (CallEnded.transcript data) callId ;;
        (* 2. Save call analysis *)
        insertCallAnalysis E
          {| CallAnalysis.call_id := param callId;
             CallAnalysis.structured_data := structuredData;
             CallAnalysis.customer_name :=
               param (StructuredData.customer_name structuredData);
             CallAnalysis.customer_phone :=
               param (StructuredData.customer_phone structuredData);
             CallAnalysis.vehicle_make :=
               param (StructuredData.vehicle_make structuredData);
             CallAnalysis.vehicle_model :=
               param (StructuredData.vehicle_model structuredData);
             CallAnalysis.issue_keywords :=
               param (StructuredData.issue_summary structuredData);
             CallAnalysis.sentiment :=
               param (or_else (sentimentLabel (CallEnded.sentiment data))
                              (VStr "neutral"));
             CallAnalysis.booking_created :=
               param (or_else (StructuredData.booking_confirmed structuredData)
                              (VBool false)) |} ;;
        (* 3. If booking was confirmed, create booking *)
        (if truthy (StructuredData.booking_confirmed structuredData)
            && truthy (StructuredData.customer_name structuredData)
         then
           console Log "Creating booking for call" ;;
           createBooking E
             {| BookingData.callId := callId;
                BookingData.workshopId := workshopId;
                BookingData.customerName :=
                  StructuredData.customer_name structuredData;
                BookingData.customerPhone :=
                  StructuredData.customer_phone structuredData;
                BookingData.customerEmail :=
                  StructuredData.customer_email structuredData;
                BookingData.vehicleMake :=
                  StructuredData.vehicle_make structuredData;
                BookingData.vehicleModel :=
                  StructuredData.vehicle_model structuredData;
                BookingData.vehicleYear :=
                  StructuredData.vehicle_year structuredData;
                BookingData.issueSummary :=
                  StructuredData.issue_summary structuredData;
                BookingData.issueCategory :=
                  or_else (StructuredData.issue_category structuredData)
                          (VStr "other");
                BookingData.urgency :=
                  or_else (StructuredData.urgency structuredData)
                          (VStr "normal");
                BookingData.preferredDate :=
                  StructuredData.preferred_date structuredData;
                BookingData.preferredTime :=
                  StructuredData.preferred_time structuredData |} ;;
           ret tt
         else ret tt) ;;
        (* Commit transaction *)
        clientCommit E ;;
        console Log "Call processed successfully")
       (fun error =>
          clientRollback E ;;
          console Error "Error processing call" ;;
          throw error))
    release.

(** One invocation against a database: a fresh client, no transaction
    open, an empty trace. *)
Definition initial (db : Tables) (seq : Z) : State :=
  {| database := db; txn := None; nextId := seq; trace := [] |}.

Definition run (E : Env) (data : CallEnded.t) (db : Tables) (seq : Z)
  : State * completion unit :=
  processCallEnded E data (initial db seq).

(** ** Vocabulary of the specification *)

(** No statement is rejected and the pool hands out a client. *)
Definition reliable (E : Env) : Prop :=
  connectFails E = false /\ forall t s, stmtFails E t s = false.

(** The structured data has booking-confirmed = true and a non-empty
    customer name. *)
Definition confirmedAndNamed (sd : StructuredData.t) : Prop :=
  StructuredData.booking_confirmed sd = VBool true
  /\ exists s, StructuredData.customer_name sd = VStr s /\ s <> "".

(** The two fields are of the types the extraction schema of the
    assistant declares (boolean, string), or absent. *)
Definition schemaTyped (sd : StructuredData.t) : Prop :=
  (StructuredData.booking_confirmed sd = VUndefined
   \/ StructuredData.booking_confirmed sd = VNull
   \/ exists b, StructuredData.booking_confirmed sd = VBool b)
  /\ (StructuredData.customer_name sd = VUndefined
      \/ StructuredData.customer_name sd = VNull
      \/ exists s, StructuredData.customer_name sd = VStr s).

(** The customers of a workshop with a given phone. *)
Definition customersOf (workshopId phone : value) (t : Tables)
  : list Customers.row :=
  filter (fun c => sql_eq (Customers.workshop_id c) (param workshopId)
                   && sql_eq (Customers.phone c) (param phone))
         (customers t).

Definition isPost (e : Event) : bool :=
  match e with
  | EvPost _ _ => true
  | _ => false
  end.

(** A COMMIT was sent, whatever its outcome. *)
Definition isCommit (e : Event) : bool :=
  match e with
  | EvQuery Commit _ => true
  | _ => false
  end.

(** The events before the first POST of a trace. *)
Fixpoint beforePost (tr : list Event) : list Event :=
  match tr with
  | [] => []
  | e :: tr' => if isPost e then [] else e :: beforePost tr'
  end.

(** The first POST of a trace. *)
Fixpoint firstPost (tr : list Event) : option (Notification.t * bool) :=
  match tr with
  | [] => None
  | EvPost n ok :: _ => Some (n, ok)
  | _ :: tr' => firstPost tr'
  end.

(** The events after the first POST of a trace. *)
Fixpoint afterPost (tr : list Event) : list Event :=
  match tr with
  | [] => []
  | e :: tr' => if isPost e then tr' else afterPost tr'
  end.

(** ** Sample data *)

(** A confirmed booking for Bob and his Ford Ka. *)
Definition sampleStructuredData : StructuredData.t := {|
  StructuredData.customer_name := VStr "Bob";
  StructuredData.customer_phone := VStr "555-0100";
  StructuredData.customer_email := VStr "bob@example.com";
  StructuredData.vehicle_make := VStr "Ford";
  StructuredData.vehicle_model := VStr "Ka";
  StructuredData.vehicle_year := VUndefined;
  StructuredData.issue_summary := VStr "brakes squeal";
  StructuredData.issue_category := VStr "brakes";
  StructuredData.urgency := VUndefined;
  StructuredData.preferred_date := VStr "tomorrow";
  StructuredData.preferred_time := VStr "14:00";
  StructuredData.booking_confirmed := VBool true
|}.

(** The caller confirmed a booking but no name was extracted. *)
Definition unnamedStructuredData : StructuredData.t := {|
  StructuredData.customer_name := VStr "";
  StructuredData.customer_phone := VStr "555-0100";
  StructuredData.customer_email := VUndefined;
  StructuredData.vehicle_make := VUndefined;
  StructuredData.vehicle_model := VUndefined;
  StructuredData.vehicle_year := VUndefined;
  StructuredData.issue_summary := VStr "brakes squeal";
  StructuredData.issue_category := VUndefined;
  StructuredData.urgency := VUndefined;
  StructuredData.preferred_date := VUndefined;
  StructuredData.preferred_time := VUndefined;
  StructuredData.booking_confirmed := VBool true
|}.

(** The extraction put the text "false" where the schema asks for a
    boolean. *)
Definition textConfirmedStructuredData : StructuredData.t := {|
  StructuredData.customer_name := VStr "Bob";
  StructuredData.customer_phone := VStr "555-0100";
  StructuredData.customer_email := VUndefined;
  StructuredData.vehicle_make := VUndefined;
  StructuredData.vehicle_model := VUndefined;
  StructuredData.vehicle_year := VUndefined;
  StructuredData.issue_summary := VStr "asked for prices";
  StructuredData.issue_category := VUndefined;
  StructuredData.urgency := VUndefined;
  StructuredData.preferred_date := VUndefined;
  StructuredData.preferred_time := VUndefined;
  StructuredData.booking_confirmed := VStr "false"
|}.

Definition sampleEvent (call : string) (sd : StructuredData.t) : CallEnded.t := {|
  CallEnded.callId := VStr call;
  CallEnded.workshopId := VStr "w1";
  CallEnded.vapiCallId := VStr "vapi-1";
  CallEnded.duration := VNum 95;
  CallEnded.cost := VNum 0;
  CallEnded.endReason := VStr "customer-ended-call";
  CallEnded.recording := VUndefined;
  CallEnded.transcript := VStr "...";
  CallEnded.structuredData := sd;
  CallEnded.sentiment := NoSentiment
|}.

Definition sampleCall (call : string) : Calls.row := {|
  Calls.id := VStr call;
  Calls.workshop_id := VStr "w1";
  Calls.from_number := VStr "555-0100";
  Calls.to_number := VStr "555-0199";
  Calls.vapi_call_id := VStr "vapi-1";
  Calls.status := "in-progress";
  Calls.started_at := Some (sampleNow - 100000);
  Calls.answered_at := Some (sampleNow - 95000);
  Calls.ended_at := None;
  Calls.duration_seconds := VNull;
  Calls.cost_usd := VNull;
  Calls.recording_url := VNull;
  Calls.transcript := VNull
|}.

Definition sampleDb : Tables := {|
  calls := [sampleCall "c1"; sampleCall "c2"];
  call_analysis := [];
  customers := [];
  vehicles := [];
  bookings := []
|}.

(** Nothing fails. *)
Definition steadyEnv : Env := {|
  clock := utcClock;
  stmtFails := fun _ _ => false;
  postFails := fun _ => false;
  connectFails := false
|}.

(** The database rejects the statements [rejected] selects. *)
Definition rejecting (rejected : Stmt -> bool) : Env := {|
  clock := utcClock;
  stmtFails := fun _ s => rejected s;
  postFails := fun _ => false;
  connectFails := false
|}.

Definition isInsertBooking (s : Stmt) : bool :=
  match s with
  | InsertBooking _ _ _ _ _ _ _ _ _ => true
  | _ => false
  end.

Definition isCommitStmt (s : Stmt) : bool :=
  match s with
  | Commit => true
  | _ => false
  end.

(** The notification service answers every request with an error. *)
Definition notifierDown : Env := {|
  clock := utcClock;
  stmtFails := fun _ _ => false;
  postFails := fun _ => true;
  connectFails := false
|}.

(** [E] with a notification service that always answers. *)
Definition withNotifierUp (E : Env) : Env := {|
  clock := clock E;
  stmtFails := stmtFails E;
  postFails := fun _ => false;
  connectFails := connectFails E
|}.

End Webhook.

(* ================================================================== *)
(** * More vocabulary for call-ended processing *)
(* ================================================================== *)

Module ProcessVocabulary.
Import JS JSDate DateTime Webhook.

Definition isRelease (e : Event) : bool :=
  match e with
  | EvRelease => true
  | _ => false
  end.

(** A COMMIT that the database accepted. *)
Definition isCommitted (e : Event) : bool :=
  match e with
  | EvQuery Commit true => true
  | _ => false
  end.

Definition isRollback (e : Event) : bool :=
  match e with
  | EvQuery Rollback _ => true
  | _ => false
  end.

(** The booking condition as the code tests it. *)
Definition bookingRequested (data : CallEnded.t) : bool :=
  truthy (StructuredData.booking_confirmed (CallEnded.structuredData data))
  && truthy (StructuredData.customer_name (CallEnded.structuredData data)).

(** A confirmed booking without category, urgency or date. *)
Definition undatedStructuredData : StructuredData.t := {|
  StructuredData.customer_name := VStr "Ann";
  StructuredData.customer_phone := VStr "555-0101";
  StructuredData.customer_email := VUndefined;
  StructuredData.vehicle_make := VStr "Fiat";
  StructuredData.vehicle_model := VUndefined;
  StructuredData.vehicle_year := VUndefined;
  StructuredData.issue_summary := VStr "oil change";
  StructuredData.issue_category := VUndefined;
  StructuredData.urgency := VUndefined;
  StructuredData.preferred_date := VUndefined;
  StructuredData.preferred_time := VStr "9:30 am";
  StructuredData.booking_confirmed := VBool true
|}.

End ProcessVocabulary.

(* ================================================================== *)
(** * The connection pool and the route handlers *)
(* ================================================================== *)

(** The [query] helper of the database configuration and what the
    route handlers share: the response object and the trace of a
    request. *)
Module Pool.
Import JS.

Module Workshops.
Record row : Type := {
  id : value;
  name : value;
  vapi_phone_number : value;
  status : value;
  business_hours : value
}.
End Workshops.

(** All tables: those of call-ended processing and the workshops. *)
Record Store : Type := {
  tables : Webhook.Tables;
  workshops : list Workshops.row
}.

(** The statements the handlers send through [query]. *)
Inductive PoolStmt : Type :=
| UpdateCallStarted (callId : value)
| SelectActiveWorkshop (toNumber : value)
| InsertCall (workshopId fromNumber toNumber callSid : value) (status : string).

(** The JSON bodies the handlers answer with. *)
Inductive Reply : Type :=
| Received
| ReceivedWithError (error : string)
| CallConnected (call_id workshop_name : value)
| WorkshopNotFound
| InternalServerError.

(** What one request does, in order. *)
Inductive HEvent : Type :=
| HReply (status : Z) (body : Reply)
| HPool (s : PoolStmt) (ok : bool)
| HConsole (l : Webhook.Level) (msg : string)
| HClient (e : Webhook.Event).

(** What the handlers do not decide about the pool: which statements
    the database rejects, how long a statement takes in milliseconds,
    the reading of NOW(), and what the database puts into the columns
    of a new call that the INSERT does not list (the id among them). *)
Record Env : Type := {
  poolFails : Store -> PoolStmt -> bool;
  elapsed : Store -> PoolStmt -> Z;
  dbNow : Z;
  callDefaults : Store -> Webhook.Calls.row
}.

(** The tables, the id sequence of call-ended processing, and the trace
    of the request so far. *)
Record Server : Type := {
  store : Store;
  seqNo : Z;
  log : list HEvent
}.

Definition H (A : Type) : Type := Server -> Server * completion A.

Definition ret {A} (a : A) : H A := fun sv => (sv, Normal a).

Definition bind {A B} (m : H A) (k : A -> H B) : H B :=
  fun sv =>
    match m sv with
    | (sv', Normal a) => k a sv'
    | (sv', Throw e) => (sv', Throw e)
    end.

Definition throw {A} (e : string) : H A := fun sv => (sv, Throw e).

(** [try { m } catch (error) { h error }] *)
Definition tryCatch {A} (m : H A) (h : string -> H A) : H A :=
  fun sv =>
    match m sv with
    | (sv', Normal a) => (sv', Normal a)
    | (sv', Throw e) => h e sv'
    end.

(** A synchronous call that may throw. *)
Definition lift {A} (c : completion A) : H A := fun sv => (sv, c).

Definition emit (e : HEvent) (sv : Server) : Server :=
  {| store := store sv; seqNo := seqNo sv; log := log sv ++ [e] |}.

Definition console (l : Webhook.Level) (msg : string) : H unit :=
  fun sv => (emit (HConsole l msg) sv, Normal tt).

Definition isReply (e : HEvent) : bool :=
  match e with
  | HReply _ _ => true
  | _ => false
  end.

(** [res.headersSent] *)
Definition headersSent (sv : Server) : bool := existsb isReply (log sv).

Definition errHeadersSent : string :=
  "Cannot set headers after they are sent to the client".

(** [res.status(status).json(body)]: a second answer to the same
    request throws. *)
Definition respond (status : Z) (body : Reply) : H unit :=
  fun sv =>
    if headersSent sv then (sv, Throw errHeadersSent)
    else (emit (HReply status body) sv, Normal tt).

Definition setStore (s : Store) (sv : Server) : Server :=
  {| store := s; seqNo := seqNo sv; log := log sv |}.

(** [query(text, params)]: runs the statement on the pool, each
    statement its own transaction; warns when it took more than 100 ms;
    logs and rethrows the error of a rejected statement. *)
Definition query {A} (P : Env) (s : PoolStmt) (effect : Store -> Store * A)
  : H A :=
  fun sv =>
    if poolFails P (store sv) s then
      (emit (HConsole Webhook.Error "Database query error")
            (emit (HPool s false) sv),
       Throw Webhook.errQuery)
    else
      let (st, a) := effect (store sv) in
      let sv1 := emit (HPool s true) (setStore st sv) in
      let sv2 := if 100 <? elapsed P (store sv) s
                 then emit (HConsole Webhook.Warn "Slow query") sv1 else sv1 in
      (sv2, Normal a).

Notation "x <- m ;; k" := (bind m (fun x => k))
  (at level 61, m at next level, right associativity).
Notation "m ;; k" := (bind m (fun _ => k))
  (at level 61, right associativity).

(** One request against the tables: an empty trace, nothing sent. *)
Definition fresh (s : Store) (seq : Z) : Server :=
  {| store := s; seqNo := seq; log := [] |}.

(** The answers a request got. *)
Definition replies (sv : Server) : list HEvent := filter isReply (log sv).

(** The events before the first answer. *)
Fixpoint beforeReply (l : list HEvent) : list HEvent :=
  match l with
  | [] => []
  | e :: l' => if isReply e then [] else e :: beforeReply l'
  end.

(** The request reached the database. *)
Definition isDatabaseEvent (e : HEvent) : bool :=
  match e with
  | HPool _ _ | HClient _ => true
  | _ => false
  end.

End Pool.

(* ================================================================== *)
(** * The webhook handlers *)
(* ================================================================== *)

Module Handlers.
Import JS Signature Pool.

(** ** The body of a webhook

    A property that is undefined or null is [None]; reading a property
    of it throws. *)

Module CallObject.
Record t : Type := {
  id : value;
  duration : value;
  cost : value;
  endedReason : value;
  recordingUrl : value;
  transcript : value
}.
End CallObject.

Module Analysis.
Record t : Type := {
  structuredData : option Webhook.StructuredData.t;
  sentiment : Webhook.Sentiment
}.
End Analysis.

Module Metadata.
Record t : Type := {
  call_id : value;
  workshop_id : value
}.
End Metadata.

Module Payload.
Record t : Type := {
  call : option CallObject.t;
  analysis : option Analysis.t;
  metadata : option Metadata.t
}.
End Payload.

(** [req.body]: [None] when there is no body. *)
Definition WebhookRequest : Type := Request (option Payload.t).

(** What the process is configured with: whether NODE_ENV is
    "production", the webhook secret, the runtime of the signature
    check and the clock, the pool, and the environment of call-ended
    processing. *)
Record Config : Type := {
  production : bool;
  secret : option string;
  runtime : Runtime (option Payload.t);
  nowMs : Z;
  pool : Pool.Env;
  processing : Webhook.Env
}.

Definition errNoBody : string :=
  "Cannot destructure property 'call' of 'req.body' as it is undefined.".
Definition errNoMetadata : string :=
  "Cannot read properties of undefined (reading 'call_id')".
Definition errNoCall : string :=
  "Cannot read properties of undefined (reading 'id')".

(** [if (process.env.NODE_ENV === 'production') verifyVapiSignature(req)] *)
Definition verifyInProduction (C : Config) (req : WebhookRequest) : H unit :=
  if production C then
    bind (lift (verifyVapiSignature (runtime C) (nowMs C) (secret C) req))
         (fun _ => ret tt)
  else ret tt.

(** [const { call, metadata } = req.body] *)
Definition destructure (req : WebhookRequest) : H Payload.t :=
  match body req with
  | Some p => ret p
  | None => throw errNoBody
  end.

(** [metadata.call_id], [metadata.workshop_id] *)
Definition metadataOf (p : Payload.t) : H Metadata.t :=
  match Payload.metadata p with
  | Some m => ret m
  | None => throw errNoMetadata
  end.

(** [call.id], [call.duration], ... *)
Definition callOf (p : Payload.t) : H CallObject.t :=
  match Payload.call p with
  | Some c => ret c
  | None => throw errNoCall
  end.

(** [UPDATE calls SET status = 'in-progress', answered_at = NOW()
    WHERE id = $1] *)
Definition updateCallStarted (C : Config) (callId : value) : H unit :=
  query (pool C) (UpdateCallStarted callId)
    (fun s =>
       let t := tables s in
       ({| tables :=
             {| Webhook.calls :=
                  map (fun r =>
                         if Webhook.sql_eq (Webhook.Calls.id r)
                                           (Webhook.param callId) then
                           {| Webhook.Calls.id := Webhook.Calls.id r;
                              Webhook.Calls.workshop_id :=
                                Webhook.Calls.workshop_id r;
                              Webhook.Calls.from_number :=
                                Webhook.Calls.from_number r;
                              Webhook.Calls.to_number :=
                                Webhook.Calls.to_number r;
                              Webhook.Calls.vapi_call_id :=
                                Webhook.Calls.vapi_call_id r;
                              Webhook.Calls.status := "in-progress";
                              Webhook.Calls.started_at :=
                                Webhook.Calls.started_at r;
                              Webhook.Calls.answered_at :=
                                Some (dbNow (pool C));
                              Webhook.Calls.ended_at :=
                                Webhook.Calls.ended_at r;
                              Webhook.Calls.duration_seconds :=
                                Webhook.Calls.duration_seconds r;
                              Webhook.Calls.cost_usd :=
                                Webhook.Calls.cost_usd r;
                              Webhook.Calls.recording_url :=
                                Webhook.Calls.recording_url r;
                              Webhook.Calls.transcript :=
                                Webhook.Calls.transcript r |}
                         else r) (Webhook.calls t);
                Webhook.call_analysis := Webhook.call_analysis t;
                Webhook.customers := Webhook.customers t;
                Webhook.vehicles := Webhook.vehicles t;
                Webhook.bookings := Webhook.bookings t |};
           workshops := workshops s |}, tt)).

(** ** POST /vapi/call-started *)

Definition callStarted (C : Config) (req : WebhookRequest) : H unit :=
  tryCatch
    (verifyInProduction C req ;;
     p <- destructure req ;;
     metadata <- metadataOf p ;;
     let callId := Metadata.call_id metadata in
     updateCallStarted C callId ;;
     console Webhook.Log "Call started" ;;
     respond 200 Received)
    (fun error =>
       console Webhook.Error "Webhook error" ;;
       respond 200 (ReceivedWithError error)).

(** [analysis?.structuredData || {}] and [analysis?.sentiment] *)
Definition noStructuredData : Webhook.StructuredData.t := {|
  Webhook.StructuredData.customer_name := VUndefined;
  Webhook.StructuredData.customer_phone := VUndefined;
  Webhook.StructuredData.customer_email := VUndefined;
  Webhook.StructuredData.vehicle_make := VUndefined;
  Webhook.StructuredData.vehicle_model := VUndefined;
  Webhook.StructuredData.vehicle_year := VUndefined;
  Webhook.StructuredData.issue_summary := VUndefined;
  Webhook.StructuredData.issue_category := VUndefined;
  Webhook.StructuredData.urgency := VUndefined;
  Webhook.StructuredData.preferred_date := VUndefined;
  Webhook.StructuredData.preferred_time := VUndefined;
  Webhook.StructuredData.booking_confirmed := VUndefined
|}.

Definition structuredDataOf (a : option Analysis.t)
  : Webhook.StructuredData.t :=
  match a with
  | Some x =>
      match Analysis.structuredData x with
      | Some sd => sd
      | None => noStructuredData
      end
  | None => noStructuredData
  end.

Definition sentimentOf (a : option Analysis.t) : Webhook.Sentiment :=
  match a with
  | Some x => Analysis.sentiment x
  | None => Webhook.NoSentiment
  end.

(** The argument the handler builds for [processCallEnded]. *)
Definition callEndedData (p : Payload.t) (metadata : Metadata.t)
    (call : CallObject.t) : Webhook.CallEnded.t := {|
  Webhook.CallEnded.callId := Metadata.call_id metadata;
  Webhook.CallEnded.workshopId := Metadata.workshop_id metadata;
  Webhook.CallEnded.vapiCallId := CallObject.id call;
  Webhook.CallEnded.duration := CallObject.duration call;
  Webhook.CallEnded.cost := or_else (CallObject.cost call) (VNum 0);
  Webhook.CallEnded.endReason := CallObject.endedReason call;
  Webhook.CallEnded.recording := CallObject.recordingUrl call;
  Webhook.CallEnded.transcript := CallObject.transcript call;
  Webhook.CallEnded.structuredData := structuredDataOf (Payload.analysis p);
  Webhook.CallEnded.sentiment := sentimentOf (Payload.analysis p)
|}.

(** [await processCallEnded(data)]: its own client from the pool, its
    events in the trace of the request. *)
Definition processCallEnded (C : Config) (data : Webhook.CallEnded.t)
  : H unit :=
  fun sv =>
    let (st, r) :=
      Webhook.processCallEnded (processing C) data
        (Webhook.initial (tables (store sv)) (seqNo sv)) in
    ({| store := {| tables := Webhook.database st;
                    workshops := workshops (store sv) |};
        seqNo := Webhook.nextId st;
        log := log sv ++ map HClient (Webhook.trace st) |}, r).

(** ** POST /vapi/call-ended *)

Definition callEnded (C : Config) (req : WebhookRequest) : H unit :=
  tryCatch
    (verifyInProduction C req ;;
     p <- destructure req ;;
     metadata <- metadataOf p ;;
     console Webhook.Log "Call ended" ;;
     (* Return 200 OK immediately *)
     respond 200 Received ;;
     (* Process call asynchronously *)
     call <- callOf p ;;
     processCallEnded C (callEndedData p metadata call) ;;
     console Webhook.Log "Webhook processed")
    (fun error =>
       console Webhook.Error "Webhook processing error" ;;
       respond 200 (ReceivedWithError error)).

End Handlers.

(* ================================================================== *)
(** * The call routes *)
(* ================================================================== *)

Module CallsRoutes.
Import JS Pool.

(** ** POST /inbound *)

Module InboundBody.
Record t : Type := {
  from : value;
  to : value;
  callSid : value
}.
End InboundBody.

Definition errNoInboundBody : string :=
  "Cannot destructure property 'from' of 'req.body' as it is undefined.".

(** [SELECT w.* FROM workshops w
     WHERE w.vapi_phone_number = $1 AND w.status = 'active'] *)
Definition activeWorkshops (toNumber : value) (s : Store)
  : list Workshops.row :=
  filter (fun w => Webhook.sql_eq (Workshops.vapi_phone_number w)
                                  (Webhook.param toNumber)
                   && Webhook.sql_eq (Workshops.status w) (VStr "active"))
         (workshops s).

Definition selectActiveWorkshop (P : Env) (toNumber : value)
  : H (list Workshops.row) :=
  query P (SelectActiveWorkshop toNumber)
    (fun s => (s, activeWorkshops toNumber s)).

(** [INSERT INTO calls (workshop_id, from_number, to_number,
     vapi_call_id, status, started_at)
     VALUES ($1, $2, $3, $4, $5, NOW()) RETURNING *] *)
Definition insertCall (P : Env)
    (workshopId fromNumber toNumber callSid : value) (status : string)
  : H Webhook.Calls.row :=
  query P (InsertCall workshopId fromNumber toNumber callSid status)
    (fun s =>
       let d := callDefaults P s in
       let t := tables s in
       let r := {| Webhook.Calls.id := Webhook.Calls.id d;
                   Webhook.Calls.workshop_id := Webhook.param workshopId;
                   Webhook.Calls.from_number := Webhook.param fromNumber;
                   Webhook.Calls.to_number := Webhook.param toNumber;
                   Webhook.Calls.vapi_call_id := Webhook.param callSid;
                   Webhook.Calls.status := status;
                   Webhook.Calls.started_at := Some (dbNow P);
                   Webhook.Calls.answered_at := Webhook.Calls.answered_at d;
                   Webhook.Calls.ended_at := Webhook.Calls.ended_at d;
                   Webhook.Calls.duration_seconds :=
                     Webhook.Calls.duration_seconds d;
                   Webhook.Calls.cost_usd := Webhook.Calls.cost_usd d;
                   Webhook.Calls.recording_url :=
                     Webhook.Calls.recording_url d;
                   Webhook.Calls.transcript := Webhook.Calls.transcript d |} in
       ({| tables :=
             {| Webhook.calls := (Webhook.calls t ++ [r])%list;
                Webhook.call_analysis := Webhook.call_analysis t;
                Webhook.customers := Webhook.customers t;
                Webhook.vehicles := Webhook.vehicles t;
                Webhook.bookings := Webhook.bookings t |};
           workshops := workshops s |}, r)).

(** The handler.  The assistant configuration it builds between the
    insert and the answer is sent nowhere and is left out. *)
Definition inbound (P : Env) (body : option InboundBody.t) : H unit :=
  tryCatch
    (b <- match body with
          | Some b => ret b
          | None => throw errNoInboundBody
          end ;;
     let fromNumber := InboundBody.from b in
     let toNumber := InboundBody.to b in
     let callSid := InboundBody.callSid b in
     console Webhook.Log "Incoming call" ;;
     (* 1. Find workshop by phone number *)
     workshopResult <- selectActiveWorkshop P toNumber ;;
     match workshopResult with
     | [] => respond 404 WorkshopNotFound
     | workshop :: _ =>
         (* 2. Create call record *)
         call <- insertCall P (Workshops.id workshop) fromNumber toNumber
                            callSid "initiated" ;;
         console Webhook.Log "Call initiated" ;;
         respond 200 (CallConnected (Webhook.Calls.id call)
                                    (Workshops.name workshop))
     end)
    (fun error =>
       console Webhook.Error "Error handling inbound call" ;;
       respond 500 InternalServerError).

(** An INSERT into calls was sent. *)
Definition isInsertCallEvent (e : HEvent) : bool :=
  match e with
  | HPool (InsertCall _ _ _ _ _) _ => true
  | _ => false
  end.

(** ** GET /workshop/:workshopId: the query it builds *)

Definition listQueryBase : string := "
      SELECT 
        c.*,
        ca.customer_name,
        ca.vehicle_make,
        ca.vehicle_model,
        ca.booking_created
      FROM calls c
      LEFT JOIN call_analysis ca ON ca.call_id = c.id
      WHERE c.workshop_id = $1
    ".

(** [`${n}`] for a length. *)
Definition showNat (n : nat) : string :=
  DecimalString.NilZero.string_of_uint (Nat.to_uint n).

(** [const { limit = 50, offset = 0, status } = req.query]: a default
    replaces [undefined] only. *)
Definition orDefault (v d : value) : value :=
  match v with
  | VUndefined => d
  | _ => v
  end.

(** The text and the parameters of the first query of the handler. *)
Definition listQuery (workshopId limit offset status : value)
  : string * list value :=
  let limit := orDefault limit (VNum 50) in
  let offset := orDefault offset (VNum 0) in
  let queryText := listQueryBase in
  let params := [workshopId] in
  let (queryText, params) :=
    if truthy status then
      ((queryText ++ " AND c.status = $"
                  ++ showNat (List.length params + 1))%string,
       (params ++ [status])%list)
    else (queryText, params) in
  let queryText :=
    (queryText ++ " ORDER BY c.started_at DESC LIMIT $"
               ++ showNat (List.length params + 1)
               ++ " OFFSET $" ++ showNat (List.length params + 2))%string in
  (queryText, (params ++ [limit; offset])%list).

(** The placeholders [$n] of a query text, in order. *)
Fixpoint digitsPrefix (s : string) : string :=
  match s with
  | String c s' => if is_digit c then String c (digitsPrefix s') else EmptyString
  | EmptyString => EmptyString
  end.

Fixpoint placeholders (s : string) : list Z :=
  match s with
  | EmptyString => []
  | String c s' =>
      if Ascii.eqb c "$" then
        match digitsPrefix s' with
        | EmptyString => placeholders s'
        | d => parseInt d :: placeholders s'
        end
      else placeholders s'
  end.

End CallsRoutes.

(* ================================================================== *)
(** * Sample requests and configurations *)
(* ================================================================== *)

Module Samples.
Import JS Signature Pool Handlers CallsRoutes.

Definition payloadRuntime : Runtime (option Payload.t) := {|
  hmacSha256Hex := hmacSha256Hex sampleRuntime;
  JSON_stringify := fun _ => "{}";
  ToNumber := ToNumber sampleRuntime
|}.

(** What the database fills in for a new call. *)
Definition blankCall : Webhook.Calls.row := {|
  Webhook.Calls.id := VStr "c9";
  Webhook.Calls.workshop_id := VNull;
  Webhook.Calls.from_number := VNull;
  Webhook.Calls.to_number := VNull;
  Webhook.Calls.vapi_call_id := VNull;
  Webhook.Calls.status := "";
  Webhook.Calls.started_at := None;
  Webhook.Calls.answered_at := None;
  Webhook.Calls.ended_at := None;
  Webhook.Calls.duration_seconds := VNull;
  Webhook.Calls.cost_usd := VNull;
  Webhook.Calls.recording_url := VNull;
  Webhook.Calls.transcript := VNull
|}.

(** A pool on which the statements [rejected] selects fail. *)
Definition poolRejecting (rejected : PoolStmt -> bool) : Pool.Env := {|
  poolFails := fun _ s => rejected s;
  elapsed := fun _ _ => 5;
  dbNow := DateTime.sampleNow;
  callDefaults := fun _ => blankCall
|}.

Definition steadyPool : Pool.Env := poolRejecting (fun _ => false).

Definition isInsertCall (s : PoolStmt) : bool :=
  match s with
  | InsertCall _ _ _ _ _ => true
  | _ => false
  end.

Definition configOf (inProduction : bool) (E : Webhook.Env) : Config := {|
  production := inProduction;
  secret := Some "s";
  runtime := payloadRuntime;
  nowMs := DateTime.sampleNow;
  pool := steadyPool;
  processing := E
|}.

Definition samplePayload (call : string) (withCall : bool) : Payload.t := {|
  Payload.call :=
    if withCall then
      Some {| CallObject.id := VStr "vapi-1";
              CallObject.duration := VNum 95;
              CallObject.cost := VUndefined;
              CallObject.endedReason := VStr "customer-ended-call";
              CallObject.recordingUrl := VUndefined;
              CallObject.transcript := VStr "..." |}
    else None;
  Payload.analysis :=
    Some {| Analysis.structuredData := Some Webhook.sampleStructuredData;
            Analysis.sentiment := Webhook.NoSentiment |};
  Payload.metadata :=
    Some {| Metadata.call_id := VStr call; Metadata.workshop_id := VStr "w1" |}
|}.

(** A request without signature headers. *)
Definition unsignedRequest (p : option Payload.t) : WebhookRequest := {|
  x_vapi_signature := None;
  x_vapi_timestamp := None;
  body := p
|}.

Definition sampleWorkshop (id : string) (phone : string) (status : string)
  : Workshops.row := {|
  Workshops.id := VStr id;
  Workshops.name := VStr "Main Street Garage";
  Workshops.vapi_phone_number := VStr phone;
  Workshops.status := VStr status;
  Workshops.business_hours := VObject "{}"
|}.

Definition sampleStore : Store := {|
  tables := Webhook.sampleDb;
  workshops := [sampleWorkshop "w0" "555-0198" "inactive";
                sampleWorkshop "w1" "555-0199" "active"]
|}.

Definition sampleInbound (toNumber : string) : InboundBody.t := {|
  InboundBody.from := VStr "555-0100";
  InboundBody.to := VStr toNumber;
  InboundBody.callSid := VStr "CA1"
|}.

End Samples.

(* ================================================================== *)
(** * Properties of the Date operations and of the parser *)
(* ================================================================== *)

Module DateFacts.
Import JS JSDate.

Lemma TimeClip_ok (t : Z) : Z.abs t <= maxTime -> TimeClip t = TimeValue t.
Proof.
  intro H. unfold TimeClip.
  destruct (Z.leb_spec (Z.abs t) maxTime) as [_|Hgt]; [reflexivity | lia].
Qed.

Lemma MonthFromTime_range (t : Z) : 0 <= MonthFromTime t <= 11.
Proof.
  unfold MonthFromTime.
  repeat match goal with
         | |- context [if ?b then _ else _] => destruct b
         end; lia.
Qed.

Lemma MakeDay_same_month (l k : Z) :
  MakeDay (YearFromTime l) (MonthFromTime l) (DateFromTime l + k) = Day l + k.
Proof.
  pose proof (MonthFromTime_range l) as Hm.
  unfold MakeDay.
  rewrite (Z.div_small (MonthFromTime l) 12) by lia.
  rewrite (Z.mod_small (MonthFromTime l) 12) by lia.
  unfold DateFromTime, DayWithinYear.
  rewrite Z.add_0_r. lia.
Qed.

Lemma MakeDate_Day_TimeWithinDay (l : Z) :
  MakeDate (Day l) (TimeWithinDay l) = l.
Proof.
  unfold MakeDate, Day, TimeWithinDay, msPerDay.
  pose proof (Z.div_mod l 86400000). lia.
Qed.

Lemma setDate_next (tza t : Z) :
  Z.abs (t + msPerDay) <= maxTime ->
  setDate tza (TimeValue t) (option_map (Z.add 1) (getDate tza (TimeValue t)))
  = TimeValue (t + msPerDay).
Proof.
  intro H. cbn [getDate option_map setDate].
  rewrite (Z.add_comm 1), MakeDay_same_month.
  rewrite <- TimeClip_ok by exact H. f_equal.
  unfold UTC, MakeDate.
  pose proof (MakeDate_Day_TimeWithinDay (LocalTime tza t)) as E.
  unfold MakeDate in E. unfold LocalTime in *. lia.
Qed.

Lemma Day_shift (l : Z) : Day (l + msPerDay) = Day l + 1.
Proof.
  unfold Day, msPerDay.
  replace (l + 86400000) with (l + 1 * 86400000) by lia.
  rewrite Z.div_add by lia. reflexivity.
Qed.

Lemma Day_bound (l : Z) : Z.abs (Day l * msPerDay) <= Z.abs l + msPerDay.
Proof.
  unfold Day, msPerDay.
  pose proof (Z.div_mod l 86400000).
  pose proof (Z.mod_pos_bound l 86400000). lia.
Qed.

Lemma setHours_local (tza t h m : Z) :
  0 <= h <= 99 -> 0 <= m <= 99 ->
  Z.abs t + 2 * Z.abs tza + 7 * msPerDay <= maxTime ->
  setHours tza (TimeValue t) h m 0 0
  = TimeValue (UTC tza (MakeDate (Day (LocalTime tza t)) (MakeTime h m 0 0))).
Proof.
  intros Hh Hm Hr. cbn [setHours]. apply TimeClip_ok.
  pose proof (Day_bound (LocalTime tza t)) as B.
  unfold UTC, MakeDate, MakeTime, LocalTime, msPerHour, msPerMinute,
    msPerSecond, msPerDay, maxTime in *. lia.
Qed.

End DateFacts.

Module TimeFacts.
Import JS JSDate DateTime.

Lemma digit_val_range (c : ascii) : is_digit c = true -> 0 <= digit_val c <= 9.
Proof.
  unfold is_digit, digit_val. intro H.
  apply andb_true_iff in H as [H1 H2].
  apply Z.leb_le in H1. apply Z.leb_le in H2. lia.
Qed.

Lemma parseInt_hour (g : string) :
  isHourText g = true -> 0 <= parseInt g <= 99.
Proof.
  unfold isHourText, parseInt.
  destruct g as [|a [|b [|c g]]]; cbn -[Z.mul Z.add]; try discriminate;
    rewrite ?andb_true_r; intro H.
  - pose proof (digit_val_range a H). lia.
  - apply andb_true_iff in H as [Ha Hb].
    pose proof (digit_val_range a Ha). pose proof (digit_val_range b Hb). lia.
  - rewrite !andb_false_r in H. discriminate.
Qed.

Lemma parseInt_minute (g : string) :
  isMinuteText g = true -> 0 <= parseInt g <= 99.
Proof.
  unfold isMinuteText, parseInt.
  destruct g as [|a [|b [|c g]]]; cbn -[Z.mul Z.add]; rewrite ?andb_false_r;
    try discriminate; rewrite ?andb_true_r; intro H.
  apply andb_true_iff in H as [Ha Hb].
  pose proof (digit_val_range a Ha). pose proof (digit_val_range b Hb). lia.
Qed.

Lemma timeMatchHere_groups (s g1 g2 : string) (g3 : option string) :
  timeMatchHere s = Some (g1, g2, g3) ->
  isHourText g1 = true /\ isMinuteText g2 = true.
Proof.
  unfold timeMatchHere, isHourText, isMinuteText.
  destruct s as [|x1 [|x2 [|x3 [|x4 [|x5 r]]]]]; try discriminate.
  - destruct (is_digit x1) eqn:D1, (Ascii.eqb x2 ":") eqn:C2,
      (is_digit x3) eqn:D3, (is_digit x4) eqn:D4; cbn; try discriminate.
    intro H; inversion H; subst; cbn. rewrite D1, D3, D4. auto.
  - destruct (is_digit x1) eqn:D1, (is_digit x2) eqn:D2,
      (Ascii.eqb x2 ":") eqn:C2, (Ascii.eqb x3 ":") eqn:C3,
      (is_digit x3) eqn:D3, (is_digit x4) eqn:D4, (is_digit x5) eqn:D5;
      cbn; try discriminate;
      intro H; inversion H; subst; cbn;
      rewrite ?D1, ?D2, ?D3, ?D4, ?D5; auto.
Qed.

Lemma timeMatch_groups (s g1 g2 : string) (g3 : option string) :
  timeMatch s = Some (g1, g2, g3) ->
  isHourText g1 = true /\ isMinuteText g2 = true.
Proof.
  induction s as [|c s IH]; cbn [timeMatch].
  - destruct (timeMatchHere "") as [[[? ?] ?]|] eqn:E; [|discriminate].
    intro H; inversion H; subst. exact (timeMatchHere_groups _ _ _ _ E).
  - destruct (timeMatchHere (String c s)) as [[[? ?] ?]|] eqn:E.
    + intro H; inversion H; subst. exact (timeMatchHere_groups _ _ _ _ E).
    + exact IH.
Qed.

Lemma hourMinuteOf_range (time : value) (h m : Z) :
  hourMinuteOf time = Normal (h, m) -> 0 <= h <= 99 /\ 0 <= m <= 99.
Proof.
  unfold hourMinuteOf.
  destruct (truthy time); [|intro H; inversion H; lia].
  destruct time; try discriminate.
  destruct (timeMatch s) as [[[g1 g2] g3]|] eqn:E; [|intro H; inversion H; lia].
  destruct (timeMatch_groups _ _ _ _ E) as [H1 H2].
  pose proof (parseInt_hour _ H1) as R1.
  pose proof (parseInt_minute _ H2) as R2.
  intro H; inversion H; subst.
  destruct (groupIs g3 "pm" && (parseInt g1 <? 12)) eqn:P.
  - apply andb_true_iff in P as [_ P]. apply Z.ltb_lt in P.
    destruct (groupIs g3 "am" && (parseInt g1 + 12 =? 12)); lia.
  - destruct (groupIs g3 "am" && (parseInt g1 =? 12)); lia.
Qed.

End TimeFacts.

Module ParseFacts.
Import JS JSDate DateTime DateFacts TimeFacts.

Lemma space_not_letter (a : ascii) :
  is_space a = true ->
  (Ascii.eqb (lower a) "a" || Ascii.eqb (lower a) "p") = false.
Proof.
  destruct a as [[] [] [] [] [] [] [] []]; vm_compute; congruence.
Qed.

Lemma skipSpaces_app (ws rest : string) :
  allOf is_space ws = true ->
  skipSpaces rest = rest ->
  skipSpaces (ws ++ rest) = rest.
Proof.
  induction ws as [|c ws IH]; cbn; intros H Hr; [exact Hr|].
  apply andb_true_iff in H as [Hc Hws]. rewrite Hc. auto.
Qed.

Lemma toLowerCase_two (s : string) (x y : ascii) :
  toLowerCase s = String x (String y "") ->
  exists a b, s = String a (String b "") /\ lower a = x /\ lower b = y.
Proof.
  destruct s as [|a [|b [|c s]]]; cbn; try discriminate.
  intro H; inversion H. eauto.
Qed.

Lemma meridiemGroup_after_spaces (ws ap : string) :
  allOf is_space ws = true ->
  isMeridiemText ap = true ->
  meridiemGroup (ws ++ ap) = if String.eqb ap "" then None else Some ap.
Proof.
  intros Hws Hap. unfold isMeridiemText in Hap.
  destruct (String.eqb_spec ap "") as [->|Hne].
  - unfold meridiemGroup. rewrite skipSpaces_app; auto.
  - cbn in Hap.
    assert (exists a b, ap = String a (String b "") /\
                        (lower a = "a"%char \/ lower a = "p"%char) /\
                        lower b = "m"%char) as (a & b & -> & Ha & Hb).
    { apply orb_true_iff in Hap as [Hap|Hap]; apply String.eqb_eq in Hap;
        apply toLowerCase_two in Hap as (a & b & ? & ? & ?); eauto 8. }
    assert (Hl : (Ascii.eqb (lower a) "a" || Ascii.eqb (lower a) "p") = true).
    { destruct Ha as [-> | ->]; reflexivity. }
    unfold meridiemGroup. rewrite skipSpaces_app; auto.
    + rewrite Hl, Hb. reflexivity.
    + cbn. destruct (is_space a) eqn:Hs; [|reflexivity].
      rewrite (space_not_letter a Hs) in Hl. discriminate.
Qed.

Lemma timeMatchHere_one (h1 m1 m2 : ascii) (rest : string) :
  is_digit h1 = true -> is_digit m1 = true -> is_digit m2 = true ->
  timeMatchHere (String h1 (String ":" (String m1 (String m2 rest))))
  = Some (String h1 "", String m1 (String m2 ""), meridiemGroup rest).
Proof.
  intros H1 H3 H4. unfold timeMatchHere.
  replace (is_digit ":") with false by reflexivity.
  rewrite H1, H3, H4. cbn. destruct rest; reflexivity.
Qed.

Lemma timeMatchHere_two (h1 h2 m1 m2 : ascii) (rest : string) :
  is_digit h1 = true -> is_digit h2 = true ->
  is_digit m1 = true -> is_digit m2 = true ->
  timeMatchHere (String h1 (String h2 (String ":" (String m1 (String m2 rest)))))
  = Some (String h1 (String h2 ""), String m1 (String m2 ""),
          meridiemGroup rest).
Proof.
  intros H1 H2 H3 H4. unfold timeMatchHere.
  rewrite H1, H2, H3, H4. reflexivity.
Qed.

Lemma timeMatch_canonical (h mm ws ap : string) :
  isHourText h = true -> isMinuteText mm = true ->
  allOf is_space ws = true -> isMeridiemText ap = true ->
  timeMatch (h ++ ":" ++ mm ++ ws ++ ap)
  = Some (h, mm, if String.eqb ap "" then None else Some ap).
Proof.
  intros Hh Hm Hws Hap.
  rewrite <- (meridiemGroup_after_spaces ws ap Hws Hap).
  unfold isHourText in Hh. unfold isMinuteText in Hm.
  destruct mm as [|m1 [|m2 [|m3 mm]]]; cbn in Hm;
    rewrite ?andb_false_r in Hm; try discriminate.
  rewrite !andb_true_r in Hm. apply andb_true_iff in Hm as [Hm1 Hm2].
  destruct h as [|h1 [|h2 [|h3 h]]]; cbn in Hh;
    rewrite ?andb_false_r in Hh; try discriminate;
    rewrite ?andb_true_r in Hh.
  - cbn [append timeMatch]. rewrite timeMatchHere_one by assumption.
    reflexivity.
  - apply andb_true_iff in Hh as [Hh1 Hh2].
    cbn [append timeMatch]. rewrite timeMatchHere_two by assumption.
    reflexivity.
Qed.

Lemma hourMinuteOf_canonical (h mm ws ap : string) :
  isHourText h = true -> isMinuteText mm = true ->
  allOf is_space ws = true -> isMeridiemText ap = true ->
  hourMinuteOf (VStr (h ++ ":" ++ mm ++ ws ++ ap))
  = Normal (to24 (parseInt h) ap, parseInt mm).
Proof.
  intros Hh Hm Hws Hap. unfold hourMinuteOf.
  assert (Ht : truthy (VStr (h ++ ":" ++ mm ++ ws ++ ap)) = true).
  { destruct h; [discriminate Hh | reflexivity]. }
  rewrite Ht, timeMatch_canonical by assumption.
  unfold to24, groupIs.
  destruct (String.eqb_spec ap "") as [->|Hne]; [reflexivity|].
  assert (Hnt : truthy (VStr ap) = true).
  { cbn. destruct (String.eqb_spec ap ""); [contradiction | reflexivity]. }
  rewrite Hnt. cbn [andb].
  destruct (String.eqb_spec (toLowerCase ap) "pm") as [Ep|Ep].
  - rewrite Ep. cbn [String.eqb Ascii.eqb Bool.eqb andb].
    destruct (parseInt h <? 12); reflexivity.
  - destruct (String.eqb_spec (toLowerCase ap) "am") as [Ea|Ea].
    + cbn [andb]. reflexivity.
    + reflexivity.
Qed.

End ParseFacts.

Module ParseDateFacts.
Import JS JSDate DateTime DateFacts TimeFacts ParseFacts.

Lemma tomorrowAtTen_spec (c : Clock) :
  clockInRange c -> tomorrowAtTen c = localInstant c (today c + 1) 10 0.
Proof.
  unfold clockInRange, tomorrowAtTen, newDate, localInstant, today.
  intro H.
  assert (D : msPerDay = 86400000) by reflexivity.
  assert (X : maxTime = 8640000000000000) by reflexivity.
  rewrite setDate_next by lia.
  rewrite setHours_local by lia.
  unfold LocalTime.
  replace (now c + msPerDay + tza c) with (now c + tza c + msPerDay) by lia.
  rewrite Day_shift. reflexivity.
Qed.

(** The day the date block selects for a string that is not of the
    date-only form. *)
Lemma targetDateOf_relative (c : Clock) (d : string) :
  clockInRange c -> matchesIsoDate d = false ->
  targetDateOf c (VStr d)
  = Normal (TimeValue (now c + (if String.eqb (toLowerCase d) "today"
                                then 0 else msPerDay))).
Proof.
  unfold clockInRange. intros H Hiso. unfold targetDateOf. rewrite Hiso.
  assert (D : msPerDay = 86400000) by reflexivity.
  assert (X : maxTime = 8640000000000000) by reflexivity.
  unfold newDate.
  destruct (String.eqb_spec (toLowerCase d) "tomorrow") as [E|E].
  - rewrite E. cbn [String.eqb Ascii.eqb Bool.eqb].
    rewrite setDate_next by lia. reflexivity.
  - destruct (String.eqb (toLowerCase d) "today").
    + rewrite Z.add_0_r. reflexivity.
    + rewrite setDate_next by lia. reflexivity.
Qed.

Lemma parseDateTime_relative (c : Clock) (d : string) (time : value) (h m : Z) :
  clockInRange c -> truthy (VStr d) = true -> matchesIsoDate d = false ->
  hourMinuteOf time = Normal (h, m) ->
  parseDateTime c (VStr d) time
  = localInstant c (today c + (if String.eqb (toLowerCase d) "today"
                               then 0 else 1)) h m.
Proof.
  intros H Ht Hiso Hhm. unfold parseDateTime, parseDateTimeBody.
  rewrite Ht. cbn [negb].
  rewrite targetDateOf_relative, Hhm by assumption.
  destruct (hourMinuteOf_range _ _ _ Hhm) as [Rh Rm].
  unfold clockInRange in H.
  assert (D : msPerDay = 86400000) by reflexivity.
  assert (X : maxTime = 8640000000000000) by reflexivity.
  rewrite setHours_local by (destruct (String.eqb (toLowerCase d) "today"); lia).
  unfold localInstant, today, LocalTime.
  destruct (String.eqb (toLowerCase d) "today").
  - rewrite !Z.add_0_r. reflexivity.
  - replace (now c + msPerDay + tza c) with (now c + tza c + msPerDay) by lia.
    rewrite Day_shift. reflexivity.
Qed.

Lemma parseDateTime_throws (c : Clock) (date time : value) (e : string) :
  parseDateTimeBody c date time = Throw e ->
  parseDateTime c date time = tomorrowAtTen c.
Proof.
  intro H. unfold parseDateTime. rewrite H.
  destruct (negb (truthy date)); reflexivity.
Qed.

End ParseDateFacts.

Module IsoFacts.
Import JS JSDate DateTime DateFacts TimeFacts ParseFacts ParseDateFacts.

Lemma isoDateGroups_inv (d ys ms ds : string) :
  isoDateGroups d = Some (ys, ms, ds) ->
  truthy (VStr d) = true /\ matchesIsoDate d = true /\
  0 <= parseInt ys <= 9999 /\ 0 <= parseInt ms <= 99 /\ 0 <= parseInt ds <= 99.
Proof.
  intro H. unfold matchesIsoDate. rewrite H.
  unfold isoDateGroups in H.
  destruct d as [|y1 [|y2 [|y3 [|y4 [|s1 [|m1 [|m2 [|s2 [|d1 [|d2 [|x d]]]]]]]]]]];
    try discriminate.
  destruct (is_digit y1) eqn:Y1; [|discriminate].
  destruct (is_digit y2) eqn:Y2; [|discriminate].
  destruct (is_digit y3) eqn:Y3; [|discriminate].
  destruct (is_digit y4) eqn:Y4; [|discriminate].
  destruct (Ascii.eqb s1 "-"); [|discriminate].
  destruct (is_digit m1) eqn:M1; [|discriminate].
  destruct (is_digit m2) eqn:M2; [|discriminate].
  destruct (Ascii.eqb s2 "-"); [|discriminate].
  destruct (is_digit d1) eqn:D1; [|discriminate].
  destruct (is_digit d2) eqn:D2; [|discriminate].
  cbn in H. inversion H; subst.
  apply digit_val_range in Y1, Y2, Y3, Y4, M1, M2, D1, D2.
  unfold parseInt. cbn -[Z.mul Z.add]. repeat split; try reflexivity; lia.
Qed.

Lemma DayFromYear_bound (y : Z) :
  0 <= y <= 9999 -> -720000 <= DayFromYear y <= 2940000.
Proof.
  intro H. unfold DayFromYear.
  Z.to_euclidean_division_equations. lia.
Qed.

Lemma DaysBeforeMonth_bound (leap : bool) (m : Z) :
  0 <= DaysBeforeMonth leap m <= 335.
Proof.
  unfold DaysBeforeMonth.
  destruct leap;
    repeat match goal with
           | |- context [match ?x with _ => _ end] => destruct x
           end; lia.
Qed.

Lemma MakeDay_bound (y m d : Z) :
  0 <= y <= 9999 -> 0 <= m <= 11 -> 1 <= d <= 31 ->
  -720000 <= MakeDay y m d <= 2941000.
Proof.
  intros Hy Hm Hd. unfold MakeDay.
  rewrite (Z.div_small m 12), (Z.mod_small m 12), Z.add_0_r by lia.
  pose proof (DayFromYear_bound y Hy).
  pose proof (DaysBeforeMonth_bound (InLeapYear y) m). lia.
Qed.

Lemma Day_of_midnight (day off : Z) :
  Day (day * msPerDay + off) = day + off / msPerDay.
Proof.
  unfold Day. rewrite Z.add_comm, Z.div_add by (unfold msPerDay; lia).
  apply Z.add_comm.
Qed.

Lemma parseDateTime_iso (c : Clock) (d ys ms ds : string) (time : value)
    (h m : Z) :
  clockInRange c -> - msPerDay <= tza c < msPerDay ->
  isoDateGroups d = Some (ys, ms, ds) ->
  1 <= parseInt ms <= 12 -> 1 <= parseInt ds <= 31 ->
  hourMinuteOf time = Normal (h, m) ->
  parseDateTime c (VStr d) time
  = localInstant c (MakeDay (parseInt ys) (parseInt ms - 1) (parseInt ds)
                    + tza c / msPerDay) h m.
Proof.
  intros Hc Htz Hg Hm Hd Hhm.
  destruct (isoDateGroups_inv _ _ _ _ Hg) as (Ht & Hiso & Ry & _ & _).
  destruct (hourMinuteOf_range _ _ _ Hhm) as [Rh Rm].
  pose proof (MakeDay_bound (parseInt ys) (parseInt ms - 1) (parseInt ds)
                Ry ltac:(lia) Hd) as B.
  assert (D : msPerDay = 86400000) by reflexivity.
  assert (X : maxTime = 8640000000000000) by reflexivity.
  unfold parseDateTime, parseDateTimeBody, targetDateOf.
  rewrite Ht, Hiso, Hhm. cbn [negb].
  unfold newDateOfString. rewrite Hg. unfold parseDateOnly.
  replace ((1 <=? parseInt ms) && (parseInt ms <=? 12) &&
           (1 <=? parseInt ds) && (parseInt ds <=? 31)) with true
    by (symmetry; rewrite !andb_true_iff, !Z.leb_le; lia).
  unfold MakeDate at 1. rewrite TimeClip_ok by lia.
  rewrite setHours_local by lia.
  unfold LocalTime, localInstant.
  rewrite Z.add_0_r, Day_of_midnight. reflexivity.
Qed.

Lemma parseDateTime_iso_invalid (c : Clock) (d ys ms ds : string)
    (time : value) (hm : Z * Z) :
  isoDateGroups d = Some (ys, ms, ds) ->
  ((1 <=? parseInt ms) && (parseInt ms <=? 12) &&
   (1 <=? parseInt ds) && (parseInt ds <=? 31)) = false ->
  hourMinuteOf time = Normal hm ->
  parseDateTime c (VStr d) time = InvalidDate.
Proof.
  intros Hg Hbad Hhm.
  destruct (isoDateGroups_inv _ _ _ _ Hg) as (Ht & Hiso & _).
  unfold parseDateTime, parseDateTimeBody, targetDateOf.
  rewrite Ht, Hiso, Hhm. cbn [negb]. destruct hm as [h m].
  unfold newDateOfString. rewrite Hg. unfold parseDateOnly. rewrite Hbad.
  reflexivity.
Qed.

End IsoFacts.

(* ================================================================== *)
(** * The date and time parser against its specification *)
(* ================================================================== *)

Module ParseClaims.
Import JS JSDate DateTime DateFacts TimeFacts ParseFacts ParseDateFacts IsoFacts.

Lemma parseDateTime_today (c : Clock) (time : value) (h m : Z) :
  clockInRange c -> hourMinuteOf time = Normal (h, m) ->
  parseDateTime c (VStr "today") time = localInstant c (today c) h m.
Proof.
  intros Hc Hhm.
  rewrite (parseDateTime_relative c "today" time h m Hc eq_refl eq_refl Hhm).
  rewrite Z.add_0_r. reflexivity.
Qed.

(** C10: when the date is absent (null, undefined or empty) the result
    is tomorrow at 10:00 whatever the time argument is, also for a
    well-formed time such as "2:30 pm", which on its own stands for
    14:30. *)
Theorem parseDateTime_date_absent (c : Clock) (date time : value) :
  clockInRange c -> truthy date = false ->
  parseDateTime c date time = localInstant c (today c + 1) 10 0
  /\ parseDateTime c date (VStr "2:30 pm") = localInstant c (today c + 1) 10 0
  /\ hourMinuteOf (VStr "2:30 pm") = Normal (14, 30).
Proof.
  intros Hc Hd. unfold parseDateTime. rewrite Hd. cbn [negb].
  rewrite tomorrowAtTen_spec by exact Hc. repeat split.
Qed.

Lemma parseDateTime_date_absent_witness :
  clockInRange utcClock /\ truthy VNull = false /\
  parseDateTime utcClock VNull (VStr "9:15 am")
  = localInstant utcClock (today utcClock + 1) 10 0.
Proof.
  assert (Hc : clockInRange utcClock) by (apply Z.leb_le; reflexivity).
  split; [exact Hc | split; [reflexivity |]].
  exact (proj1 (parseDateTime_date_absent utcClock VNull (VStr "9:15 am")
                  Hc eq_refl)).
Defined.

(** C6, as stated, fails: "9am" has no colon and no minutes, the pattern
    does not match it, and ("today", "9am") is today at 10:00, not at
    09:00. *)
Lemma parseDateTime_9am_counterexample :
  timeMatch "9am" = None /\
  hourMinuteOf (VStr "9am") = Normal (10, 0) /\
  localFields (tza utcClock) (parseDateTime utcClock (VStr "today") (VStr "9am"))
  = Some (2025, 11, 2, 10, 0).
Proof. repeat split. Qed.

(** C6, amended: an absent time is 10:00; a time of the form H:MM or
    HH:MM, with the minutes required, then optional whitespace and an
    optional am or pm in any case, is converted from 12-hour to 24-hour
    (12pm is 12, 12am is 0, N pm is N+12 below 12); a time the pattern
    does not match, such as "9am", is 10:00, whatever the local offset
    from UTC.  So ("today", "9am") is today at 10:00; and, where the
    local offset from UTC is zero up to a day, ("2025-01-30", "2:30 pm")
    is 2025-01-30 at 14:30. *)
Theorem parseDateTime_time_rules (c : Clock) (absent : value)
    (h mm ws ap noMatch : string) :
  clockInRange c ->
  truthy absent = false ->
  isHourText h = true -> isMinuteText mm = true ->
  allOf is_space ws = true -> isMeridiemText ap = true ->
  timeMatch noMatch = None ->
  hourMinuteOf absent = Normal (10, 0)
  /\ hourMinuteOf (VStr (h ++ ":" ++ mm ++ ws ++ ap))
     = Normal (to24 (parseInt h) ap, parseInt mm)
  /\ parseDateTime c (VStr "today") (VStr (h ++ ":" ++ mm ++ ws ++ ap))
     = localInstant c (today c) (to24 (parseInt h) ap) (parseInt mm)
  /\ hourMinuteOf (VStr noMatch) = Normal (10, 0)
  /\ parseDateTime c (VStr "today") (VStr noMatch) = localInstant c (today c) 10 0
  /\ parseDateTime c (VStr "today") (VStr "9am") = localInstant c (today c) 10 0
  /\ (0 <= tza c < msPerDay ->
      parseDateTime c (VStr "2025-01-30") (VStr "2:30 pm")
      = localInstant c (MakeDay 2025 0 30) 14 30).
Proof.
  intros Hc Habs Hh Hm Hws Hap Hno.
  assert (E1 : hourMinuteOf absent = Normal (10, 0)).
  { unfold hourMinuteOf. rewrite Habs. reflexivity. }
  assert (E2 : hourMinuteOf (VStr noMatch) = Normal (10, 0)).
  { unfold hourMinuteOf. rewrite Hno. destruct (truthy (VStr noMatch)); reflexivity. }
  pose proof (hourMinuteOf_canonical h mm ws ap Hh Hm Hws Hap) as E3.
  repeat split; try assumption.
  - exact (parseDateTime_today c _ _ _ Hc E3).
  - exact (parseDateTime_today c _ _ _ Hc E2).
  - exact (parseDateTime_today c (VStr "9am") 10 0 Hc eq_refl).
  - intro Htz.
    rewrite (parseDateTime_iso c "2025-01-30" "2025" "01" "30" (VStr "2:30 pm")
               14 30 Hc ltac:(lia) eq_refl ltac:(cbv; intuition congruence)
               ltac:(cbv; intuition congruence) eq_refl).
    rewrite Z.div_small by exact Htz. rewrite Z.add_0_r. reflexivity.
Qed.

(** The rules west of UTC, where the offset is negative, and the ISO
    example on a server on UTC. *)
Lemma parseDateTime_time_rules_witness :
  hourMinuteOf (VStr "2:30 pm") = Normal (14, 30)
  /\ parseDateTime westClock (VStr "today") (VStr "2:30 pm")
     = localInstant westClock (today westClock) 14 30
  /\ parseDateTime westClock (VStr "today") (VStr "9am")
     = localInstant westClock (today westClock) 10 0
  /\ parseDateTime utcClock (VStr "2025-01-30") (VStr "2:30 pm")
     = localInstant utcClock (MakeDay 2025 0 30) 14 30.
Proof.
  assert (Hw : clockInRange westClock) by (apply Z.leb_le; reflexivity).
  assert (Hc : clockInRange utcClock) by (apply Z.leb_le; reflexivity).
  assert (Htz : 0 <= tza utcClock < msPerDay)
    by (split; [apply Z.leb_le | apply Z.ltb_lt]; reflexivity).
  pose proof (parseDateTime_time_rules westClock VNull "2" "30" " " "pm" "9am"
                Hw eq_refl eq_refl eq_refl eq_refl eq_refl eq_refl) as W.
  pose proof (parseDateTime_time_rules utcClock VNull "2" "30" " " "pm" "9am"
                Hc eq_refl eq_refl eq_refl eq_refl eq_refl eq_refl) as T.
  split; [exact (proj1 (proj2 W)) |].
  split; [exact (proj1 (proj2 (proj2 W))) |].
  split; [exact (proj1 (proj2 (proj2 (proj2 (proj2 (proj2 W)))))) |].
  exact (proj2 (proj2 (proj2 (proj2 (proj2 (proj2 T))))) Htz).
Defined.

(** C7 at the failing inputs.  On a server west of UTC the date-only
    string is read as midnight UTC, which is the evening before in
    local time, and setting the local hours keeps that day:
    ("2025-01-30", "2:30 pm") is 2025-01-29 at 14:30.  A string that
    matches the pattern without being a date gives an Invalid Date. *)
Theorem parseDateTime_iso_date_failing_input :
  matchesIsoDate "2025-01-30" = true
  /\ localFields (tza westClock)
       (parseDateTime westClock (VStr "2025-01-30") (VStr "2:30 pm"))
     = Some (2025, 1, 29, 14, 30)
  /\ matchesIsoDate "2025-13-45" = true
  /\ parseDateTime utcClock (VStr "2025-13-45") (VStr "2:30 pm") = InvalidDate.
Proof. repeat split. Qed.

End ParseClaims.

(* ================================================================== *)
(** * Signature verification against its specification *)
(* ================================================================== *)

Module SignatureClaims.
Import JS Signature.

Lemma missing_iff (h : option string) : missing h = true <-> headerAbsent h.
Proof.
  unfold missing, headerAbsent. destruct h as [s|]; cbn.
  - destruct (String.eqb_spec s "") as [->|Hne]; cbn; split; intro H; auto.
    + discriminate.
    + destruct H as [H|H]; [discriminate | inversion H; contradiction].
  - split; auto.
Qed.

Lemma missing_false (h : option string) :
  ~ headerAbsent h -> missing h = false.
Proof.
  intro H. destruct (missing h) eqn:E; [|reflexivity].
  apply missing_iff in E. contradiction.
Qed.

Lemma tooOld_iff (now : Z) (t : number) :
  num_gt (num_abs (num_sub (Fin (inject_Z now)) t)) (Fin (inject_Z 300)) = true
  <-> differsByMoreThan 300 now t.
Proof.
  destruct t as [| | |q]; cbn [num_gt num_abs num_sub differsByMoreThan];
    try tauto; try (split; [discriminate|tauto]).
  rewrite negb_true_iff. split; intro H.
  - apply Qnot_le_lt. intro L. apply Qle_bool_iff in L. congruence.
  - destruct (Qle_bool (Qabs (inject_Z now - q)) (inject_Z 300)) eqn:E;
      [|reflexivity].
    apply Qle_bool_iff in E. exfalso. exact (Qlt_not_le _ _ H E).
Qed.

Lemma tooOld_false (now : Z) (t : number) :
  ~ differsByMoreThan 300 now t ->
  num_gt (num_abs (num_sub (Fin (inject_Z now)) t)) (Fin (inject_Z 300)) = false.
Proof.
  intro H.
  destruct (num_gt _ _) eqn:E; [|reflexivity].
  apply tooOld_iff in E. contradiction.
Qed.

Lemma append_cancel_l (p s s' : string) :
  (p ++ s = p ++ s')%string -> s = s'.
Proof.
  induction p as [|c p IH]; cbn; intro H; [exact H|].
  inversion H. auto.
Qed.

Section Claims.
Context {Body : Type} (rt : Runtime Body).

(** What a successful verification tells. *)
Lemma verifyVapiSignature_true (nowMs : Z) (key : string)
    (req : Request Body) :
  verifyVapiSignature rt nowMs (Some key) req = Normal true ->
  missing (x_vapi_signature req) = false
  /\ missing (x_vapi_timestamp req) = false
  /\ num_gt (num_abs (num_sub (Fin (inject_Z (nowMs / 1000))) (stamp rt req)))
            (Fin (inject_Z 300)) = false
  /\ headerText (x_vapi_signature req) = digest rt key req.
Proof.
  unfold verifyVapiSignature, stamp, digest.
  destruct (missing (x_vapi_signature req)); cbn [orb]; [discriminate|].
  destruct (missing (x_vapi_timestamp req)); [discriminate|].
  destruct (num_gt _ _); [discriminate|].
  destruct (String.eqb_spec (headerText (x_vapi_signature req))
              (hmacSha256Hex rt key
                 (payload rt (headerText (x_vapi_timestamp req)) (body req))))
    as [E|E]; cbn [negb]; [|discriminate].
  intros _. auto.
Qed.

(** The verdict on a request whose headers are those of a request that
    verifies. *)
Lemma verifyVapiSignature_same_headers (nowMs : Z) (key : string)
    (req altered : Request Body) :
  verifyVapiSignature rt nowMs (Some key) req = Normal true ->
  x_vapi_signature altered = x_vapi_signature req ->
  x_vapi_timestamp altered = x_vapi_timestamp req ->
  verifyVapiSignature rt nowMs (Some key) altered
  = if String.eqb (digest rt key req) (digest rt key altered)
    then Normal true else Throw errInvalid.
Proof.
  intros H Hs Ht.
  destruct (verifyVapiSignature_true nowMs key req H) as (M1 & M2 & M3 & M4).
  clear H. unfold verifyVapiSignature, stamp, digest in *.
  rewrite Hs, Ht, M1, M2. cbn [orb]. rewrite M3, M4.
  destruct (String.eqb _ _); reflexivity.
Qed.

(** C5, amended: for every request, verification fails when the
    signature or the timestamp header is absent; fails when the
    timestamp is more than 300 seconds away from the current time;
    fails when the hex HMAC-SHA256, under the shared secret, of
    timestamp, ".", and [JSON.stringify(req.body)] is not the signature
    header; and succeeds otherwise.  When the body of a request that
    verifies is altered, the headers staying as they are, the request
    still verifies exactly when the digest of the new signed text is
    that of the old one: an alteration that leaves
    [JSON.stringify(req.body)] as it was keeps the signature valid, and
    one that changes the digest is refused as an invalid signature. *)
Theorem verifyVapiSignature_cases (nowMs : Z) (key : string)
    (req altered : Request Body) :
  ((headerAbsent (x_vapi_signature req) \/ headerAbsent (x_vapi_timestamp req)) ->
   verifyVapiSignature rt nowMs (Some key) req = Throw errMissing)
  /\ (~ headerAbsent (x_vapi_signature req) ->
      ~ headerAbsent (x_vapi_timestamp req) ->
      differsByMoreThan 300 (nowMs / 1000) (stamp rt req) ->
      verifyVapiSignature rt nowMs (Some key) req = Throw errTooOld)
  /\ (~ headerAbsent (x_vapi_signature req) ->
      ~ headerAbsent (x_vapi_timestamp req) ->
      ~ differsByMoreThan 300 (nowMs / 1000) (stamp rt req) ->
      x_vapi_signature req <> Some (digest rt key req) ->
      verifyVapiSignature rt nowMs (Some key) req = Throw errInvalid)
  /\ (~ headerAbsent (x_vapi_signature req) ->
      ~ headerAbsent (x_vapi_timestamp req) ->
      ~ differsByMoreThan 300 (nowMs / 1000) (stamp rt req) ->
      x_vapi_signature req = Some (digest rt key req) ->
      verifyVapiSignature rt nowMs (Some key) req = Normal true)
  /\ (verifyVapiSignature rt nowMs (Some key) req = Normal true ->
      x_vapi_signature altered = x_vapi_signature req ->
      x_vapi_timestamp altered = x_vapi_timestamp req ->
      (JSON_stringify rt (body altered) = JSON_stringify rt (body req) ->
       verifyVapiSignature rt nowMs (Some key) altered = Normal true)
      /\ (verifyVapiSignature rt nowMs (Some key) altered = Normal true
          <-> digest rt key altered = digest rt key req)
      /\ (digest rt key altered <> digest rt key req ->
          verifyVapiSignature rt nowMs (Some key) altered = Throw errInvalid)).
Proof.
  split; [|split; [|split; [|split]]].
  - intros Hu. unfold verifyVapiSignature.
    replace (missing (x_vapi_signature req)
             || missing (x_vapi_timestamp req)) with true; [reflexivity|].
    symmetry. apply orb_true_iff.
    destruct Hu as [H|H]; [left|right]; apply missing_iff; exact H.
  - intros H1 H2 H3. unfold verifyVapiSignature, stamp in *.
    rewrite (missing_false _ H1), (missing_false _ H2). cbn [orb].
    apply tooOld_iff in H3. rewrite H3. reflexivity.
  - intros H1 H2 H3 H4. unfold verifyVapiSignature, stamp, digest in *.
    rewrite (missing_false _ H1), (missing_false _ H2). cbn [orb].
    rewrite (tooOld_false _ _ H3).
    destruct (String.eqb_spec (headerText (x_vapi_signature req))
                (hmacSha256Hex rt key
                   (payload rt (headerText (x_vapi_timestamp req))
                      (body req)))) as [E|E]; [|reflexivity].
    exfalso. apply H4. rewrite <- E.
    destruct (x_vapi_signature req) as [s|]; [reflexivity|].
    exfalso. apply H1. left. reflexivity.
  - intros H1 H2 H3 H4. unfold verifyVapiSignature, stamp, digest in *.
    rewrite (missing_false _ H1), (missing_false _ H2). cbn [orb].
    rewrite (tooOld_false _ _ H3), H4. cbn [headerText].
    rewrite String.eqb_refl. reflexivity.
  - intros H Hs Ht.
    rewrite (verifyVapiSignature_same_headers nowMs key req altered H Hs Ht).
    destruct (String.eqb_spec (digest rt key req) (digest rt key altered))
      as [E|E].
    + repeat split; auto. intro N. contradiction N. auto.
    + split; [|split; [split|]].
      * intro J. exfalso. apply E. unfold digest, payload.
        rewrite Ht, J. reflexivity.
      * discriminate.
      * intro D. exfalso. apply E. auto.
      * reflexivity.
Qed.

End Claims.

Lemma verifyVapiSignature_cases_witness :
  let sent body :=
    sampleRequest (Some (hmacSha256Hex rawBodyRuntime "s"
                           ("1762078600." ++ compactBody)))
                  (Some "1762078600") body in
  verifyVapiSignature rawBodyRuntime 1762078620000 (Some "s") (sent compactBody)
  = Normal true
  /\ verifyVapiSignature rawBodyRuntime 1762078620000 (Some "s")
       (sent spacedBody) = Normal true
  /\ verifyVapiSignature rawBodyRuntime 1762078620000 (Some "s") (sent "{}")
     = Throw errInvalid.
Proof.
  intro sent.
  assert (P : forall s : string, s <> "" -> ~ headerAbsent (Some s)).
  { intros s Hs [H|H]; [discriminate H | inversion H; contradiction]. }
  assert (Fresh : ~ differsByMoreThan 300 (1762078620000 / 1000)
                    (stamp rawBodyRuntime (sent compactBody))).
  { intro H. vm_compute in H. discriminate H. }
  assert (G : verifyVapiSignature rawBodyRuntime 1762078620000 (Some "s")
                (sent compactBody) = Normal true).
  { apply (proj1 (proj2 (proj2 (proj2
             (verifyVapiSignature_cases rawBodyRuntime 1762078620000 "s"
                (sent compactBody) (sent compactBody)))))).
    - apply P. discriminate.
    - apply P. discriminate.
    - exact Fresh.
    - reflexivity. }
  split; [exact G|]. split.
  - exact (proj1 (proj2 (proj2 (proj2 (proj2
             (verifyVapiSignature_cases rawBodyRuntime 1762078620000 "s"
                (sent compactBody) (sent spacedBody))))) G eq_refl eq_refl)
             eq_refl).
  - apply (proj2 (proj2 (proj2 (proj2 (proj2
             (verifyVapiSignature_cases rawBodyRuntime 1762078620000 "s"
                (sent compactBody) (sent "{}"))))) G eq_refl eq_refl)).
    vm_compute. discriminate.
Defined.

(** White space inside a string literal is kept, that between tokens is
    not. *)
Example reserialise_keeps_literals :
  JSON_stringify rawBodyRuntime
    ("[ " ++ String doubleQuote "a b" ++ String doubleQuote " , 1 ]")
  = "[" ++ String doubleQuote "a b" ++ String doubleQuote ",1]".
Proof. reflexivity. Qed.

(** C5, as stated, fails where it speaks of the body: the signed text
    is built from [JSON.stringify(req.body)], not from the bytes
    received.  The raw bodies {"a":1} and {"a": 1} differ by one byte and
    both verify against the signature over the first; and the second,
    signed by a sender over its own bytes, is refused. *)
Lemma verifyVapiSignature_raw_body_counterexample :
  let signed over body :=
    sampleRequest (Some (hmacSha256Hex rawBodyRuntime "s" ("1762078600." ++ over)))
                  (Some "1762078600") body in
  spacedBody <> compactBody
  /\ verifyVapiSignature rawBodyRuntime 1762078620000 (Some "s")
       (signed compactBody compactBody) = Normal true
  /\ verifyVapiSignature rawBodyRuntime 1762078620000 (Some "s")
       (signed compactBody spacedBody) = Normal true
  /\ verifyVapiSignature rawBodyRuntime 1762078620000 (Some "s")
       (signed spacedBody spacedBody) = Throw errInvalid.
Proof.
  intro signed. split; [discriminate|]. repeat split.
Qed.

End SignatureClaims.

(* ================================================================== *)
(** * Call-ended processing against its specification *)
(* ================================================================== *)

Module WebhookClaims.
Import JS JSDate DateTime Webhook.

Ltac unfold_run :=
  unfold run, processCallEnded, createBooking, initial, getClient, tryFinally,
    tryCatch, bind, ret, throw, console, release, clientBegin, clientCommit,
    clientRollback, updateCallEnded, insertCallAnalysis, selectCustomer,
    insertCustomer, insertVehicle, insertBooking, markBookingCreated,
    axiosPost, query.

(** One step of symbolic execution: split on the next thing the code
    does not decide. *)
Ltac branch :=
  match goal with
  | |- context [stmtFails ?E ?t ?s] =>
      let F := fresh "F" in destruct (stmtFails E t s) eqn:F
  | |- context [connectFails ?E] =>
      let F := fresh "F" in destruct (connectFails E) eqn:F
  | |- context [postFails ?E ?n] =>
      let F := fresh "F" in destruct (postFails E n) eqn:F
  | |- context [if ?b then _ else _] =>
      let F := fresh "B" in destruct b eqn:F
  | |- context [match filter ?f ?l with _ => _ end] =>
      let F := fresh "S" in destruct (filter f l) eqn:F
  end.

Ltac sym := cbn -[parseDateTime param sql_eq filter truthy or_else app In].

Ltac pick :=
  repeat first [left; reflexivity | right].

(** C1: when processing a call-ended event fails, at whatever step, the
    committed tables are those from before the invocation: the Call row
    keeps its prior status and no CallAnalysis, Customer, Vehicle or
    Booking row of the invocation is retained; unless no client could
    be obtained at all, a ROLLBACK was sent. *)
Theorem processCallEnded_atomic (E : Env) (data : CallEnded.t) (db : Tables)
    (seq : Z) (e : string) :
  snd (run E data db seq) = Throw e ->
  database (fst (run E data db seq)) = db
  /\ (In (EvConnect false) (trace (fst (run E data db seq)))
      \/ In (EvQuery Rollback true) (trace (fst (run E data db seq)))
      \/ In (EvQuery Rollback false) (trace (fst (run E data db seq)))).
Proof.
  unfold_run. sym.
  repeat (branch; sym); try discriminate; intros _;
    (split; [reflexivity|]); sym.
  all: try (left; pick; fail).
  all: try (right; left; pick; fail).
  all: try (right; right; pick; fail).
Qed.

Lemma processCallEnded_atomic_witness :
  snd (run (rejecting isInsertBooking) (sampleEvent "c1" sampleStructuredData)
           sampleDb 1) = Throw errQuery
  /\ database (fst (run (rejecting isInsertBooking)
                        (sampleEvent "c1" sampleStructuredData) sampleDb 1))
     = sampleDb.
Proof.
  split; [reflexivity|].
  exact (proj1 (processCallEnded_atomic (rejecting isInsertBooking)
                  (sampleEvent "c1" sampleStructuredData) sampleDb 1 errQuery
                  eq_refl)).
Defined.

(** C4 at the failing input: the caller confirmed a booking but the
    extracted name is empty.  No booking is created and the statement
    that marks a booking as created is never sent, yet the CallAnalysis
    row is inserted with booking_created = true: the insert takes the
    flag from booking_confirmed. *)
Theorem callAnalysis_booking_created_failing_input :
  let st := fst (run steadyEnv (sampleEvent "c1" unnamedStructuredData)
                     sampleDb 1) in
  snd (run steadyEnv (sampleEvent "c1" unnamedStructuredData) sampleDb 1)
  = Normal tt
  /\ map CallAnalysis.booking_created (call_analysis (database st))
     = [VBool true]
  /\ map CallAnalysis.sentiment (call_analysis (database st))
     = [VStr "neutral"]
  /\ bookings (database st) = []
  /\ existsb (fun e => match e with
                       | EvQuery (MarkBookingCreated _) _ => true
                       | _ => false
                       end) (trace st) = false.
Proof. vm_compute. repeat split. Qed.

(** C3, as stated, fails: the POST is sent while the transaction is
    still open.  In a run where nothing fails no COMMIT precedes the
    POST and one follows it; and when the COMMIT is rejected the
    notification has been delivered for a booking that no table
    holds. *)
Lemma notification_before_commit_counterexample :
  let ok := fst (run steadyEnv (sampleEvent "c1" sampleStructuredData)
                     sampleDb 1) in
  let lost := fst (run (rejecting isCommitStmt)
                       (sampleEvent "c1" sampleStructuredData) sampleDb 1) in
  existsb isPost (trace ok) = true
  /\ existsb isCommit (beforePost (trace ok)) = false
  /\ existsb isCommit (afterPost (trace ok)) = true
  /\ option_map snd (firstPost (trace lost)) = Some true
  /\ existsb isCommit (beforePost (trace lost)) = false
  /\ bookings (database lost) = [].
Proof. vm_compute. repeat split. Qed.

(** C3, amended: the booking-notification POST is sent by createBooking
    inside the call-ended transaction, after BEGIN, the Booking insert
    and the booking-created update of that transaction and before any
    COMMIT; it carries the id, workshop id, customer id and scheduled
    time of the inserted Booking and the customer email of the
    structured data; it is sent at most once. *)
Theorem notification_inside_transaction (E : Env) (data : CallEnded.t)
    (db : Tables) (seq : Z) (n : Notification.t) (ok : bool) :
  let sd := CallEnded.structuredData data in
  let tr := trace (fst (run E data db seq)) in
  firstPost tr = Some (n, ok) ->
  existsb isCommit (beforePost tr) = false
  /\ In (EvQuery Begin true) (beforePost tr)
  /\ (exists vehicleId,
        In (EvQuery (InsertBooking (CallEnded.workshopId data)
                       (Notification.customerId n) vehicleId
                       (CallEnded.callId data) (Notification.scheduledAt n)
                       (StructuredData.issue_summary sd)
                       (or_else (StructuredData.issue_category sd) (VStr "other"))
                       (or_else (StructuredData.urgency sd) (VStr "normal"))
                       "confirmed") true)
           (beforePost tr))
  /\ In (EvQuery (MarkBookingCreated (CallEnded.callId data)) true)
        (beforePost tr)
  /\ Notification.workshopId n = CallEnded.workshopId data
  /\ Notification.customerEmail n = StructuredData.customer_email sd
  /\ Notification.scheduledAt n
     = parseDateTime (clock E) (StructuredData.preferred_date sd)
                     (StructuredData.preferred_time sd)
  /\ existsb isPost (afterPost tr) = false
  /\ (snd (run E data db seq) = Normal tt ->
      exists b, In b (bookings (database (fst (run E data db seq))))
                /\ Bookings.id b = Notification.bookingId n
                /\ Bookings.customer_id b = Notification.customerId n
                /\ Bookings.scheduled_at b = Notification.scheduledAt n).
Proof.
  unfold_run. sym.
  repeat (branch; sym); try discriminate;
    intro H; inversion H; subst; clear H; sym.
  all: repeat split; try reflexivity; try discriminate.
  all: try (pick; fail).
  all: try (eexists; pick; fail).
  all: try (intros _; eexists; split; [apply in_or_app; right; left; reflexivity | repeat split]).
Qed.

Lemma notification_inside_transaction_witness :
  let tr := trace (fst (run steadyEnv (sampleEvent "c1" sampleStructuredData)
                            sampleDb 1)) in
  existsb isCommit (beforePost tr) = false
  /\ In (EvQuery Begin true) (beforePost tr).
Proof.
  pose proof (notification_inside_transaction steadyEnv
                (sampleEvent "c1" sampleStructuredData) sampleDb 1
                {| Notification.bookingId := 3;
                   Notification.workshopId := VStr "w1";
                   Notification.customerId := 1;
                   Notification.customerEmail := VStr "bob@example.com";
                   Notification.scheduledAt :=
                     parseDateTime utcClock (VStr "tomorrow") (VStr "14:00") |}
                true eq_refl) as T.
  exact (conj (proj1 T) (proj1 (proj2 T))).
Defined.

Lemma truthy_condition (sd : StructuredData.t) :
  schemaTyped sd ->
  (truthy (StructuredData.booking_confirmed sd)
   && truthy (StructuredData.customer_name sd) = true
   <-> confirmedAndNamed sd).
Proof.
  unfold schemaTyped, confirmedAndNamed.
  intros [[Hb|[Hb|[b Hb]]] [Hn|[Hn|[s Hn]]]]; rewrite Hb, Hn; cbn;
    rewrite ?andb_false_r;
    try (split; [discriminate | intros [H1 (x & H2 & H3)]; discriminate]).
  destruct b; cbn.
  - destruct (String.eqb_spec s "") as [->|Hne]; cbn; split.
    + discriminate.
    + intros [_ (x & Hx & Hne)]. inversion Hx; subst. contradiction.
    + intros _. split; [reflexivity | exists s; auto].
    + reflexivity.
  - split; [discriminate | intros [H _]; discriminate].
Qed.

(** Without the condition the invocation touches neither customers,
    vehicles nor bookings. *)
Lemma run_without_booking (E : Env) (data : CallEnded.t) (db : Tables)
    (seq : Z) :
  truthy (StructuredData.booking_confirmed (CallEnded.structuredData data))
  && truthy (StructuredData.customer_name (CallEnded.structuredData data))
  = false ->
  customers (database (fst (run E data db seq))) = customers db
  /\ vehicles (database (fst (run E data db seq))) = vehicles db
  /\ bookings (database (fst (run E data db seq))) = bookings db.
Proof.
  intro Hc. unfold_run. sym. rewrite Hc.
  repeat (branch; sym); repeat split.
Qed.

(** With the condition, and nothing failing, exactly one booking is
    added, for the customer the lookup finds or else for a new one. *)
Lemma run_with_booking (E : Env) (data : CallEnded.t) (db : Tables)
    (seq : Z) :
  let sd := CallEnded.structuredData data in
  let st := fst (run E data db seq) in
  reliable E ->
  truthy (StructuredData.booking_confirmed sd)
  && truthy (StructuredData.customer_name sd) = true ->
  snd (run E data db seq) = Normal tt
  /\ exists b,
       bookings (database st) = (bookings db ++ [b])%list
       /\ Bookings.call_id b = param (CallEnded.callId data)
       /\ Bookings.workshop_id b = param (CallEnded.workshopId data)
       /\ Bookings.status b = "confirmed"
       /\ match customersOf (CallEnded.workshopId data)
                            (StructuredData.customer_phone sd) db with
          | [] =>
              customers (database st)
              = (customers db ++
                  [{| Customers.id := seq;
                      Customers.workshop_id := param (CallEnded.workshopId data);
                      Customers.name := param (StructuredData.customer_name sd);
                      Customers.phone := param (StructuredData.customer_phone sd);
                      Customers.email := param (StructuredData.customer_email sd) |}])%list
              /\ Bookings.customer_id b = seq
          | c :: _ =>
              customers (database st) = customers db
              /\ Bookings.customer_id b = Customers.id c
          end.
Proof.
  intros sd st [Hconn Hstmt] Hc. subst sd st.
  unfold_run. unfold customersOf. sym. rewrite Hconn. sym.
  repeat (rewrite Hstmt; sym). rewrite Hc. sym.
  repeat (rewrite Hstmt; sym).
  destruct (filter _ (customers db)) as [|c hits]; sym;
    repeat (rewrite Hstmt; sym);
    repeat (branch; sym; repeat (rewrite Hstmt; sym));
    (split; [reflexivity | eexists; repeat split]).
Qed.

(** With the condition, whatever fails, an invocation that completes
    has added exactly one booking. *)
Lemma run_completed_with_booking (E : Env) (data : CallEnded.t) (db : Tables)
    (seq : Z) :
  let sd := CallEnded.structuredData data in
  let st := fst (run E data db seq) in
  truthy (StructuredData.booking_confirmed sd)
  && truthy (StructuredData.customer_name sd) = true ->
  snd (run E data db seq) = Normal tt ->
  exists b,
    bookings (database st) = (bookings db ++ [b])%list
    /\ Bookings.call_id b = param (CallEnded.callId data)
    /\ Bookings.status b = "confirmed".
Proof.
  intros sd st Hc. subst sd st.
  unfold_run. sym. rewrite Hc.
  repeat (branch; sym); try discriminate; intros _;
    eexists; repeat split.
Qed.

(** C2, as stated, fails: the code tests the two fields for truthiness,
    and the text "false" is truthy.  An event whose booking-confirmed
    is that text, not [true], gets a Customer and a Booking. *)
Lemma booking_for_text_false_counterexample :
  let sd := textConfirmedStructuredData in
  let st := fst (run steadyEnv (sampleEvent "c1" sd) sampleDb 1) in
  StructuredData.booking_confirmed sd <> VBool true
  /\ ~ confirmedAndNamed sd
  /\ snd (run steadyEnv (sampleEvent "c1" sd) sampleDb 1) = Normal tt
  /\ bookings sampleDb = []
  /\ map Bookings.call_id (bookings (database st)) = [VStr "c1"]
  /\ map Customers.name (customers (database st)) = [VStr "Bob"].
Proof.
  split; [discriminate|]. split; [intros [H _]; discriminate H|].
  repeat split.
Qed.

(** C2, amended: for every call-ended event, a Booking row is created
    only if booking_confirmed and customer_name of the structured data
    are both truthy; when either is falsy, the invocation creates no
    Booking, Customer or Vehicle, whatever fails; when both are truthy
    and the invocation completes, exactly one Booking is created, for
    the call and confirmed; and it completes when no statement fails.
    For fields of the types the schema declares, both truthy means
    booking-confirmed = true and a non-empty customer name. *)
Theorem booking_iff_truthy_condition (E : Env) (data : CallEnded.t)
    (db : Tables) (seq : Z) :
  let sd := CallEnded.structuredData data in
  let st := fst (run E data db seq) in
  let requested := truthy (StructuredData.booking_confirmed sd)
                   && truthy (StructuredData.customer_name sd) in
  (bookings (database st) <> bookings db -> requested = true)
  /\ (requested = false ->
      bookings (database st) = bookings db
      /\ customers (database st) = customers db
      /\ vehicles (database st) = vehicles db)
  /\ (requested = true -> snd (run E data db seq) = Normal tt ->
      exists b, bookings (database st) = (bookings db ++ [b])%list
                /\ Bookings.call_id b = param (CallEnded.callId data)
                /\ Bookings.status b = "confirmed")
  /\ (requested = true -> reliable E -> snd (run E data db seq) = Normal tt)
  /\ (schemaTyped sd -> (requested = true <-> confirmedAndNamed sd)).
Proof.
  intros sd st requested.
  split; [|split; [|split; [|split]]].
  - intro Hch. destruct requested eqn:Hc; [reflexivity|].
    exfalso. apply Hch.
    exact (proj2 (proj2 (run_without_booking E data db seq Hc))).
  - intro Hc.
    destruct (run_without_booking E data db seq Hc) as (? & ? & ?). auto.
  - intros Hc Hr. exact (run_completed_with_booking E data db seq Hc Hr).
  - intros Hc Hrel. exact (proj1 (run_with_booking E data db seq Hrel Hc)).
  - exact (truthy_condition sd).
Qed.

Lemma booking_iff_truthy_condition_witness :
  snd (run steadyEnv (sampleEvent "c1" sampleStructuredData) sampleDb 1)
  = Normal tt
  /\ (exists b,
       bookings (database (fst (run steadyEnv
                                    (sampleEvent "c1" sampleStructuredData)
                                    sampleDb 1)))
       = (bookings sampleDb ++ [b])%list
       /\ Bookings.call_id b = param (VStr "c1")
       /\ Bookings.status b = "confirmed")
  /\ bookings (database (fst (run steadyEnv
                                 (sampleEvent "c1" unnamedStructuredData)
                                 sampleDb 1)))
     = bookings sampleDb.
Proof.
  assert (Hrel : reliable steadyEnv).
  { split; [reflexivity | intros; reflexivity]. }
  pose proof (booking_iff_truthy_condition steadyEnv
                (sampleEvent "c1" sampleStructuredData) sampleDb 1) as T.
  pose proof (booking_iff_truthy_condition steadyEnv
                (sampleEvent "c1" unnamedStructuredData) sampleDb 1) as U.
  cbv zeta in T, U.
  pose proof (proj1 (proj2 (proj2 (proj2 T))) eq_refl Hrel) as N.
  split; [exact N|]. split.
  - exact (proj1 (proj2 (proj2 T)) eq_refl N).
  - exact (proj1 (proj1 (proj2 U) eq_refl)).
Defined.

(** C9: when the notification service fails every request, the tables
    and the outcome of the invocation are those of the same invocation
    with the service up; the failed POST is followed by a warning on
    the console; and an event that fulfils the booking condition, with
    nothing else failing, completes normally with its Booking row in
    the tables. *)
Theorem notification_failure_isolated (E : Env) (data : CallEnded.t)
    (db : Tables) (seq : Z) :
  let sd := CallEnded.structuredData data in
  let st := fst (run E data db seq) in
  (forall n, postFails E n = true) ->
  database st = database (fst (run (withNotifierUp E) data db seq))
  /\ snd (run E data db seq) = snd (run (withNotifierUp E) data db seq)
  /\ (forall n ok, firstPost (trace st) = Some (n, ok) ->
      ok = false
      /\ In (EvConsole Warn "Failed to notify booking service")
            (afterPost (trace st)))
  /\ (reliable E ->
      truthy (StructuredData.booking_confirmed sd)
      && truthy (StructuredData.customer_name sd) = true ->
      snd (run E data db seq) = Normal tt
      /\ exists b n,
           bookings (database st) = (bookings db ++ [b])%list
           /\ firstPost (trace st) = Some (n, false)
           /\ Notification.bookingId n = Bookings.id b).
Proof.
  intros sd st Hp. subst sd st. split; [|split; [|split]].
  - unfold withNotifierUp. unfold_run. sym.
    repeat (repeat (rewrite Hp; sym); branch; sym); reflexivity.
  - unfold withNotifierUp. unfold_run. sym.
    repeat (repeat (rewrite Hp; sym); branch; sym); reflexivity.
  - intros n ok. unfold_run. sym.
    repeat (repeat (rewrite Hp; sym); branch; sym); try discriminate;
      intro H; inversion H; (split; [reflexivity | pick]).
  - intros Hrel Hc. split.
    + exact (proj1 (run_with_booking E data db seq Hrel Hc)).
    + destruct Hrel as [Hconn Hstmt]. revert Hc. unfold_run. sym.
      rewrite Hconn. sym. repeat (rewrite Hstmt; sym).
      intro Hc. rewrite Hc. sym.
      repeat (repeat (rewrite ?Hp, ?Hstmt; sym); branch; sym);
        repeat (rewrite ?Hp, ?Hstmt; sym);
        eexists; eexists; repeat split.
Qed.

Lemma notification_failure_isolated_witness :
  snd (run notifierDown (sampleEvent "c1" sampleStructuredData) sampleDb 1)
  = Normal tt
  /\ exists b n,
       bookings (database (fst (run notifierDown
                                    (sampleEvent "c1" sampleStructuredData)
                                    sampleDb 1)))
       = (bookings sampleDb ++ [b])%list
       /\ firstPost (trace (fst (run notifierDown
                                     (sampleEvent "c1" sampleStructuredData)
                                     sampleDb 1)))
          = Some (n, false)
       /\ Notification.bookingId n = Bookings.id b.
Proof.
  assert (Hrel : reliable notifierDown).
  { split; [reflexivity | intros; reflexivity]. }
  exact (proj2 (proj2 (proj2 (notification_failure_isolated notifierDown
                                (sampleEvent "c1" sampleStructuredData)
                                sampleDb 1 (fun _ => eq_refl))))
           Hrel eq_refl).
Defined.

Lemma sql_eq_refl (v : value) : param v <> VNull -> sql_eq (param v) (param v) = true.
Proof.
  destruct v; cbn; intro H; try contradiction.
  - apply Bool.eqb_reflx.
  - apply Qeq_bool_iff. apply Qeq_refl.
  - apply String.eqb_refl.
  - apply String.eqb_refl.
Qed.

(** C8: two call-ended events for the same workshop and the same phone
    value, each creating a booking, processed one after the other with
    nothing failing, starting from tables with at most one customer for
    that pair: afterwards there is exactly one such customer, the
    second invocation has inserted no customer row, and both bookings
    refer to that customer. *)
Theorem customer_deduplicated (E1 E2 : Env) (data1 data2 : CallEnded.t)
    (db : Tables) (seq1 seq2 : Z) :
  let sd1 := CallEnded.structuredData data1 in
  let sd2 := CallEnded.structuredData data2 in
  let ws := CallEnded.workshopId data1 in
  let phone := StructuredData.customer_phone sd1 in
  let st1 := fst (run E1 data1 db seq1) in
  let st2 := fst (run E2 data2 (database st1) seq2) in
  reliable E1 -> reliable E2 ->
  CallEnded.workshopId data2 = ws ->
  StructuredData.customer_phone sd2 = phone ->
  param ws <> VNull -> param phone <> VNull ->
  truthy (StructuredData.booking_confirmed sd1)
  && truthy (StructuredData.customer_name sd1) = true ->
  truthy (StructuredData.booking_confirmed sd2)
  && truthy (StructuredData.customer_name sd2) = true ->
  (List.length (customersOf ws phone db) <= 1)%nat ->
  exists c b1 b2,
    customersOf ws phone (database st2) = [c]
    /\ customers (database st2) = customers (database st1)
    /\ bookings (database st2) = (bookings db ++ [b1; b2])%list
    /\ Bookings.customer_id b1 = Customers.id c
    /\ Bookings.customer_id b2 = Customers.id c.
Proof.
  intros sd1 sd2 ws phone st1 st2 R1 R2 Hws Hph Nws Nph C1 C2 Hlen.
  destruct (run_with_booking E1 data1 db seq1 R1 C1)
    as (_ & b1 & Hb1 & _ & _ & _ & Hc1).
  destruct (run_with_booking E2 data2 (database st1) seq2 R2 C2)
    as (_ & b2 & Hb2 & _ & _ & _ & Hc2).
  fold sd1 ws phone st1 in Hb1, Hc1. fold sd2 st1 st2 in Hb2, Hc2.
  rewrite Hws, Hph in Hc2.
  assert (Hhits : exists c,
             customersOf ws phone (database st1) = [c]
             /\ Bookings.customer_id b1 = Customers.id c).
  { destruct (customersOf ws phone db) as [|c0 [|c1 rest]] eqn:Hdb.
    - destruct Hc1 as [Hcs Hid]. eexists. split.
      + unfold customersOf in *. rewrite Hcs, filter_app, Hdb.
        cbn [filter app Customers.workshop_id Customers.phone].
        rewrite (sql_eq_refl ws Nws), (sql_eq_refl phone Nph). reflexivity.
      + exact Hid.
    - destruct Hc1 as [Hcs Hid]. exists c0. split; [|exact Hid].
      unfold customersOf in *. rewrite Hcs. exact Hdb.
    - cbn in Hlen. lia. }
  destruct Hhits as (c & Hone & Hid1).
  rewrite Hone in Hc2. destruct Hc2 as [Hcs2 Hid2].
  exists c, b1, b2. repeat split; try assumption.
  - unfold customersOf in *. rewrite Hcs2. exact Hone.
  - rewrite Hb2, Hb1, <- app_assoc. reflexivity.
Qed.

Lemma customer_deduplicated_witness :
  exists c b1 b2,
    customersOf (VStr "w1") (VStr "555-0100")
      (database (fst (run steadyEnv (sampleEvent "c2" sampleStructuredData)
                          (database (fst (run steadyEnv
                                              (sampleEvent "c1" sampleStructuredData)
                                              sampleDb 1))) 4)))
    = [c]
    /\ Bookings.customer_id b1 = Customers.id c
    /\ Bookings.customer_id b2 = Customers.id c.
Proof.
  assert (Hrel : reliable steadyEnv).
  { split; [reflexivity | intros; reflexivity]. }
  destruct (customer_deduplicated steadyEnv steadyEnv
              (sampleEvent "c1" sampleStructuredData)
              (sampleEvent "c2" sampleStructuredData) sampleDb 1 4
              Hrel Hrel eq_refl eq_refl
              ltac:(discriminate) ltac:(discriminate) eq_refl eq_refl
              (le_S 0 0 (le_n 0)))
    as (c & b1 & b2 & H1 & _ & _ & H2 & H3).
  exists c, b1, b2. auto.
Defined.

(** Without a phone the lookup compares with NULL and finds nobody:
    each event inserts a customer of its own. *)
Example customer_without_phone_duplicated :
  let anonymous :=
    {| StructuredData.customer_name := VStr "Bob";
       StructuredData.customer_phone := VUndefined;
       StructuredData.customer_email := VUndefined;
       StructuredData.vehicle_make := VUndefined;
       StructuredData.vehicle_model := VUndefined;
       StructuredData.vehicle_year := VUndefined;
       StructuredData.issue_summary := VUndefined;
       StructuredData.issue_category := VUndefined;
       StructuredData.urgency := VUndefined;
       StructuredData.preferred_date := VUndefined;
       StructuredData.preferred_time := VUndefined;
       StructuredData.booking_confirmed := VBool true |} in
  map Customers.id
    (customers
       (database (fst (run steadyEnv (sampleEvent "c2" anonymous)
                           (database (fst (run steadyEnv
                                               (sampleEvent "c1" anonymous)
                                               sampleDb 1))) 3))))
  = [1; 3].
Proof. reflexivity. Qed.

End WebhookClaims.

(* ================================================================== *)
(** * More on the date and time parser *)
(* ================================================================== *)

Module ParseExtras.
Import JS JSDate DateTime DateFacts TimeFacts ParseFacts ParseDateFacts IsoFacts.

Lemma setHours_whole_minute (tza : Z) (d : Date) (h m t : Z) :
  setHours tza d h m 0 0 = TimeValue t -> (t + tza) mod msPerMinute = 0.
Proof.
  destruct d as [|t0]; cbn [setHours]; [discriminate|].
  unfold TimeClip. destruct (_ <=? _); [|discriminate].
  intro H. inversion H as [Ht]. clear H Ht.
  unfold UTC, MakeDate, MakeTime, msPerDay, msPerHour, msPerMinute, msPerSecond.
  replace (Day (LocalTime tza t0) * 86400000
           + (h * 3600000 + m * 60000 + 0 * 1000 + 0) - tza + tza)
    with ((Day (LocalTime tza t0) * 1440 + h * 60 + m) * 60000) by lia.
  apply Z.mod_mul. lia.
Qed.

(** X1: whatever the arguments, a valid result is on a whole minute of
    local time: every path ends in [setHours(_, _, 0, 0)]. *)
Theorem parseDateTime_whole_minute (c : Clock) (date time : value) (t : Z) :
  parseDateTime c date time = TimeValue t ->
  (t + tza c) mod msPerMinute = 0.
Proof.
  unfold parseDateTime, parseDateTimeBody, tomorrowAtTen.
  destruct (negb (truthy date)); [apply setHours_whole_minute|].
  destruct (targetDateOf c date) as [target|]; [|apply setHours_whole_minute].
  destruct (hourMinuteOf time) as [[h m]|]; apply setHours_whole_minute.
Qed.

Lemma parseDateTime_whole_minute_witness :
  parseDateTime utcClock (VStr "tomorrow") (VStr "14:05")
  = TimeValue 1762178700000
  /\ (1762178700000 + tza utcClock) mod msPerMinute = 0.
Proof.
  split; [reflexivity|].
  exact (parseDateTime_whole_minute utcClock (VStr "tomorrow") (VStr "14:05")
           1762178700000 eq_refl).
Defined.

(** X2: for a date that is not of the YYYY-MM-DD form -- absent, a keyword,
    any other text, or not a string at all -- and for any time value,
    the result is a valid instant between local midnight of today and
    six days after it. *)
Theorem parseDateTime_relative_bounds (c : Clock) (date time : value) :
  clockInRange c ->
  (forall d, date = VStr d -> matchesIsoDate d = false) ->
  exists t,
    parseDateTime c date time = TimeValue t
    /\ today c * msPerDay <= t + tza c < (today c + 6) * msPerDay.
Proof.
  intros Hc Hiso.
  assert (D : msPerDay = 86400000) by reflexivity.
  assert (Fallback : exists t,
             tomorrowAtTen c = TimeValue t
             /\ today c * msPerDay <= t + tza c < (today c + 6) * msPerDay).
  { rewrite tomorrowAtTen_spec by exact Hc. eexists. split; [reflexivity|].
    unfold UTC, MakeDate, MakeTime, msPerHour, msPerMinute, msPerSecond.
    lia. }
  destruct (truthy date) eqn:Ht.
  - destruct (parseDateTimeBody c date time) as [r|e] eqn:Hb.
    + unfold parseDateTimeBody in Hb.
      destruct date as [| | | |d|];
        try (cbn [targetDateOf] in Hb; discriminate).
      specialize (Hiso d eq_refl).
      destruct (hourMinuteOf time) as [[h m]|] eqn:Hhm;
        [|rewrite targetDateOf_relative in Hb by assumption; discriminate].
      rewrite (parseDateTime_relative c d time h m Hc Ht Hiso Hhm).
      destruct (hourMinuteOf_range _ _ _ Hhm) as [Rh Rm].
      eexists. split; [reflexivity|].
      unfold UTC, MakeDate, MakeTime, msPerHour, msPerMinute, msPerSecond.
      destruct (String.eqb (toLowerCase d) "today"); lia.
    + rewrite (parseDateTime_throws c date time e Hb). exact Fallback.
  - unfold parseDateTime. rewrite Ht. exact Fallback.
Qed.

Lemma parseDateTime_relative_bounds_witness :
  exists t,
    parseDateTime utcClock (VStr "next Monday") (VStr "99:99") = TimeValue t
    /\ today utcClock * msPerDay <= t + tza utcClock
       < (today utcClock + 6) * msPerDay.
Proof.
  apply (parseDateTime_relative_bounds utcClock (VStr "next Monday")
           (VStr "99:99")).
  - apply Z.leb_le. reflexivity.
  - intros d H. inversion H. reflexivity.
Defined.

Lemma timeMatchHere_nondigit (c : ascii) (s : string) :
  is_digit c = false -> timeMatchHere (String c s) = None.
Proof.
  intro H. unfold timeMatchHere.
  destruct s as [|x2 [|x3 [|x4 [|x5 r]]]]; rewrite ?H; reflexivity.
Qed.

Lemma timeMatch_skip_prefix (pre s : string) :
  allOf (fun c => negb (is_digit c)) pre = true ->
  timeMatch (pre ++ s) = timeMatch s.
Proof.
  induction pre as [|c pre IH]; cbn [append allOf]; intro H; [reflexivity|].
  apply andb_true_iff in H as [Hc Hpre]. apply negb_true_iff in Hc.
  cbn [timeMatch]. rewrite (timeMatchHere_nondigit c _ Hc). auto.
Qed.

Lemma timeMatch_at_start (h mm rest : string) :
  isHourText h = true -> isMinuteText mm = true ->
  timeMatch (h ++ ":" ++ mm ++ rest) = Some (h, mm, meridiemGroup rest).
Proof.
  intros Hh Hm.
  unfold isHourText in Hh. unfold isMinuteText in Hm.
  destruct mm as [|m1 [|m2 [|m3 mm]]]; cbn in Hm;
    rewrite ?andb_false_r in Hm; try discriminate.
  rewrite !andb_true_r in Hm. apply andb_true_iff in Hm as [Hm1 Hm2].
  destruct h as [|h1 [|h2 [|h3 h]]]; cbn in Hh;
    rewrite ?andb_false_r in Hh; try discriminate;
    rewrite ?andb_true_r in Hh.
  - cbn [append timeMatch]. rewrite timeMatchHere_one by assumption.
    reflexivity.
  - apply andb_true_iff in Hh as [Hh1 Hh2].
    cbn [append timeMatch]. rewrite timeMatchHere_two by assumption.
    reflexivity.
Qed.

Lemma meridiemGroup_then_text (ws ap post : string) :
  allOf is_space ws = true ->
  isMeridiemText ap = true -> ap <> "" ->
  meridiemGroup (ws ++ ap ++ post) = Some ap.
Proof.
  intros Hws Hap Hne. unfold isMeridiemText in Hap.
  destruct (String.eqb_spec ap "") as [E|_]; [contradiction|]. cbn in Hap.
  assert (exists a b, ap = String a (String b "") /\
                      (lower a = "a"%char \/ lower a = "p"%char) /\
                      lower b = "m"%char) as (a & b & -> & Ha & Hb).
  { apply orb_true_iff in Hap as [Hap|Hap]; apply String.eqb_eq in Hap;
      apply toLowerCase_two in Hap as (a & b & ? & ? & ?); eauto 8. }
  assert (Hl : (Ascii.eqb (lower a) "a" || Ascii.eqb (lower a) "p") = true).
  { destruct Ha as [-> | ->]; reflexivity. }
  unfold meridiemGroup. rewrite skipSpaces_app; auto.
  - cbn [append]. rewrite Hl, Hb. reflexivity.
  - cbn. destruct (is_space a) eqn:Hs; [|reflexivity].
    rewrite (space_not_letter a Hs) in Hl. discriminate.
Qed.

(** X3: the time is searched for anywhere in the string: text without
    digits before it and any text after its am or pm change nothing. *)
Theorem hourMinuteOf_surrounding_text (pre h mm ws ap post : string) :
  allOf (fun c => negb (is_digit c)) pre = true ->
  isHourText h = true -> isMinuteText mm = true ->
  allOf is_space ws = true ->
  isMeridiemText ap = true -> ap <> "" ->
  hourMinuteOf (VStr (pre ++ h ++ ":" ++ mm ++ ws ++ ap ++ post))
  = Normal (to24 (parseInt h) ap, parseInt mm).
Proof.
  intros Hpre Hh Hm Hws Hap Hne.
  rewrite <- (hourMinuteOf_canonical h mm ws ap Hh Hm Hws Hap).
  unfold hourMinuteOf.
  assert (T1 : truthy (VStr (pre ++ h ++ ":" ++ mm ++ ws ++ ap ++ post)) = true).
  { destruct pre; [destruct h; [discriminate Hh | reflexivity] | reflexivity]. }
  assert (T2 : truthy (VStr (h ++ ":" ++ mm ++ ws ++ ap)) = true).
  { destruct h; [discriminate Hh | reflexivity]. }
  rewrite T1, T2, timeMatch_skip_prefix by exact Hpre.
  rewrite (timeMatch_at_start h mm (ws ++ ap ++ post) Hh Hm).
  rewrite (timeMatch_canonical h mm ws ap Hh Hm Hws Hap).
  rewrite (meridiemGroup_then_text ws ap post Hws Hap Hne).
  destruct (String.eqb_spec ap "") as [E|_]; [contradiction | reflexivity].
Qed.

Lemma hourMinuteOf_surrounding_text_witness :
  hourMinuteOf (VStr "around 7:45 PM, if possible") = Normal (19, 45).
Proof.
  exact (hourMinuteOf_surrounding_text "around " "7" "45" " " "PM"
           ", if possible" eq_refl eq_refl eq_refl eq_refl eq_refl
           ltac:(discriminate)).
Defined.

End ParseExtras.

(* ================================================================== *)
(** * More on signature verification *)
(* ================================================================== *)

Module SignatureExtras.
Import JS Signature SignatureClaims.

Lemma differs_integer (secs now t : Z) :
  differsByMoreThan secs now (Fin (inject_Z t)) <-> secs < Z.abs (now - t).
Proof.
  cbn [differsByMoreThan].
  unfold Qlt, Qabs, Qminus, Qplus, Qopp, inject_Z. cbn [Qnum Qden].
  rewrite !Z.mul_1_r. replace (now + - t) with (now - t) by lia.
  reflexivity.
Qed.

Section Extras.
Context {Body : Type} (rt : Runtime Body).

(** X4: for a timestamp header that is a whole number of seconds and a
    signature that matches, the request is accepted exactly when the
    timestamp is at most 300 seconds away from the clock, in the past
    or in the future, and rejected as too old otherwise. *)
Theorem verifyVapiSignature_window (nowMs t : Z) (key : string)
    (req : Request Body) :
  ~ headerAbsent (x_vapi_signature req) ->
  ~ headerAbsent (x_vapi_timestamp req) ->
  stamp rt req = Fin (inject_Z t) ->
  x_vapi_signature req = Some (digest rt key req) ->
  (Z.abs (nowMs / 1000 - t) <= 300 ->
   verifyVapiSignature rt nowMs (Some key) req = Normal true)
  /\ (300 < Z.abs (nowMs / 1000 - t) ->
      verifyVapiSignature rt nowMs (Some key) req = Throw errTooOld).
Proof.
  intros Hs Ht Hn Hd. unfold stamp, digest in *.
  unfold verifyVapiSignature.
  rewrite (missing_false _ Hs), (missing_false _ Ht). cbn [orb].
  rewrite Hn. split; intro H.
  - rewrite tooOld_false by (rewrite differs_integer; lia).
    rewrite Hd. cbn [headerText]. rewrite String.eqb_refl. reflexivity.
  - apply differs_integer, tooOld_iff in H. rewrite H. reflexivity.
Qed.

(** X5: a timestamp header that is not a number disables the freshness
    check: a request with such a header and the matching signature is
    accepted at every reading of the clock. *)
Theorem verifyVapiSignature_timestamp_not_a_number (key : string)
    (req : Request Body) :
  ~ headerAbsent (x_vapi_signature req) ->
  ~ headerAbsent (x_vapi_timestamp req) ->
  stamp rt req = NaN ->
  x_vapi_signature req = Some (digest rt key req) ->
  forall nowMs, verifyVapiSignature rt nowMs (Some key) req = Normal true.
Proof.
  intros Hs Ht Hn Hd nowMs. unfold stamp, digest in *.
  unfold verifyVapiSignature.
  rewrite (missing_false _ Hs), (missing_false _ Ht). cbn [orb].
  rewrite Hn. cbn [num_sub num_abs num_gt].
  rewrite Hd. cbn [headerText]. rewrite String.eqb_refl. reflexivity.
Qed.

End Extras.

Lemma verifyVapiSignature_window_witness :
  verifyVapiSignature sampleRuntime 1762078620999 (Some "s")
    (sampleRequest (Some "s/1762078920.{}") (Some "1762078920") "{}")
  = Normal true
  /\ verifyVapiSignature sampleRuntime 1762078620999 (Some "s")
       (sampleRequest (Some "s/1762078319.{}") (Some "1762078319") "{}")
     = Throw errTooOld.
Proof.
  assert (P : forall s : string, s <> "" -> ~ headerAbsent (Some s)).
  { intros s Hs [H|H]; [discriminate H | inversion H; contradiction]. }
  split.
  - refine (proj1 (verifyVapiSignature_window sampleRuntime 1762078620999
                     1762078920 "s"
                     (sampleRequest (Some "s/1762078920.{}")
                                    (Some "1762078920") "{}")
                     _ _ eq_refl eq_refl) _).
    + apply P. discriminate.
    + apply P. discriminate.
    + apply Z.leb_le. reflexivity.
  - refine (proj2 (verifyVapiSignature_window sampleRuntime 1762078620999
                     1762078319 "s"
                     (sampleRequest (Some "s/1762078319.{}")
                                    (Some "1762078319") "{}")
                     _ _ eq_refl eq_refl) _).
    + apply P. discriminate.
    + apply P. discriminate.
    + apply Z.ltb_lt. reflexivity.
Defined.

Lemma verifyVapiSignature_timestamp_not_a_number_witness :
  verifyVapiSignature sampleRuntime 0 (Some "s")
    (sampleRequest (Some "s/never.{}") (Some "never") "{}")
  = Normal true
  /\ verifyVapiSignature sampleRuntime 1762078620999 (Some "s")
       (sampleRequest (Some "s/never.{}") (Some "never") "{}")
     = Normal true.
Proof.
  assert (P : forall s : string, s <> "" -> ~ headerAbsent (Some s)).
  { intros s Hs [H|H]; [discriminate H | inversion H; contradiction]. }
  assert (T : forall nowMs,
             verifyVapiSignature sampleRuntime nowMs (Some "s")
               (sampleRequest (Some "s/never.{}") (Some "never") "{}")
             = Normal true).
  { refine (verifyVapiSignature_timestamp_not_a_number sampleRuntime "s"
              (sampleRequest (Some "s/never.{}") (Some "never") "{}")
              _ _ eq_refl eq_refl).
    - apply P. discriminate.
    - apply P. discriminate. }
  exact (conj (T 0) (T 1762078620999)).
Defined.

End SignatureExtras.

(* ================================================================== *)
(** * More on call-ended processing *)
(* ================================================================== *)

Module ProcessExtras.
Import JS JSDate DateTime Webhook WebhookClaims ProcessVocabulary.

(** A failed invocation leaves the committed tables as they were. *)
Lemma run_failure_keeps_tables (E : Env) (data : CallEnded.t) (db : Tables)
    (seq : Z) (e : string) :
  snd (run E data db seq) = Throw e ->
  database (fst (run E data db seq)) = db.
Proof.
  unfold_run. sym.
  repeat (branch; sym); try discriminate; reflexivity.
Qed.

(** X6: the client is taken from the pool before anything else and, once
    taken, released exactly once, as the last thing, on every path; the
    invocation completes normally exactly when its COMMIT was accepted,
    and sends a ROLLBACK, never both, otherwise. *)
Theorem processCallEnded_client_discipline (E : Env) (data : CallEnded.t)
    (db : Tables) (seq : Z) :
  let tr := trace (fst (run E data db seq)) in
  let r := snd (run E data db seq) in
  if connectFails E then
    tr = [EvConnect false] /\ r = Throw errConnect
  else
    hd_error tr = Some (EvConnect true)
    /\ List.length (filter isRelease tr) = 1%nat
    /\ last tr (EvConnect false) = EvRelease
    /\ (r = Normal tt <-> existsb isCommitted tr = true)
    /\ existsb isRollback tr = negb (existsb isCommitted tr).
Proof.
  unfold_run. sym.
  repeat (branch; sym); cbn [app].
  all: repeat split; try reflexivity; try discriminate.
Qed.

Lemma Forall2_map_self {A : Type} (R : A -> A -> Prop) (f : A -> A)
    (l : list A) :
  (forall x, R x (f x)) -> Forall2 R l (map f l).
Proof.
  intro H. induction l as [|x l IH]; cbn; constructor; auto.
Qed.

(** X7: after a successful invocation every call with the id of the event
    is completed, with the end time, duration, cost, recording and
    transcript of the event and its other columns as before, and every
    other call is as it was. *)
Theorem processCallEnded_completes_call (E : Env) (data : CallEnded.t)
    (db : Tables) (seq : Z) :
  snd (run E data db seq) = Normal tt ->
  Forall2
    (fun old new =>
       if sql_eq (Calls.id old) (param (CallEnded.callId data)) then
         Calls.status new = "completed"
         /\ Calls.ended_at new = Some (now (clock E))
         /\ Calls.duration_seconds new = param (CallEnded.duration data)
         /\ Calls.cost_usd new = param (CallEnded.cost data)
         /\ Calls.recording_url new = param (CallEnded.recording data)
         /\ Calls.transcript new = param (CallEnded.transcript data)
         /\ Calls.id new = Calls.id old
         /\ Calls.workshop_id new = Calls.workshop_id old
         /\ Calls.from_number new = Calls.from_number old
         /\ Calls.to_number new = Calls.to_number old
         /\ Calls.vapi_call_id new = Calls.vapi_call_id old
         /\ Calls.started_at new = Calls.started_at old
         /\ Calls.answered_at new = Calls.answered_at old
       else new = old)
    (calls db) (calls (database (fst (run E data db seq)))).
Proof.
  unfold_run. sym.
  repeat (branch; sym); try discriminate; intros _.
  all: apply Forall2_map_self; intro x;
    destruct (sql_eq (Calls.id x) (param (CallEnded.callId data)));
    cbn; repeat split.
Qed.

Lemma processCallEnded_completes_call_witness :
  snd (run steadyEnv (sampleEvent "c1" sampleStructuredData) sampleDb 1)
  = Normal tt
  /\ Forall2
       (fun old new =>
          if sql_eq (Calls.id old) (param (VStr "c1")) then
            Calls.status new = "completed"
            /\ Calls.ended_at new = Some sampleNow
            /\ Calls.duration_seconds new = param (VNum 95)
            /\ Calls.cost_usd new = param (VNum 0)
            /\ Calls.recording_url new = param VUndefined
            /\ Calls.transcript new = param (VStr "...")
            /\ Calls.id new = Calls.id old
            /\ Calls.workshop_id new = Calls.workshop_id old
            /\ Calls.from_number new = Calls.from_number old
            /\ Calls.to_number new = Calls.to_number old
            /\ Calls.vapi_call_id new = Calls.vapi_call_id old
            /\ Calls.started_at new = Calls.started_at old
            /\ Calls.answered_at new = Calls.answered_at old
          else new = old)
       (calls sampleDb)
       (calls (database (fst (run steadyEnv
                                  (sampleEvent "c1" sampleStructuredData)
                                  sampleDb 1)))).
Proof.
  split; [reflexivity|].
  exact (processCallEnded_completes_call steadyEnv
           (sampleEvent "c1" sampleStructuredData) sampleDb 1 eq_refl).
Defined.

(** X8: no invocation, whatever fails, removes a row or changes the key of
    one: customers, vehicles and bookings keep their rows and gain at
    most one each, and calls and earlier analyses keep their ids. *)
Theorem processCallEnded_never_deletes (E : Env) (data : CallEnded.t)
    (db : Tables) (seq : Z) :
  let t := database (fst (run E data db seq)) in
  (exists new, customers t = (customers db ++ new)%list
               /\ (List.length new <= 1)%nat)
  /\ (exists new, vehicles t = (vehicles db ++ new)%list
                  /\ (List.length new <= 1)%nat)
  /\ (exists new, bookings t = (bookings db ++ new)%list
                  /\ (List.length new <= 1)%nat)
  /\ (exists new, map CallAnalysis.call_id (call_analysis t)
                  = (map CallAnalysis.call_id (call_analysis db) ++ new)%list
                  /\ (List.length new <= 1)%nat)
  /\ map Calls.id (calls t) = map Calls.id (calls db).
Proof.
  assert (K1 : forall (f : Calls.row -> Calls.row) l,
             (forall x, Calls.id (f x) = Calls.id x) ->
             map Calls.id (map f l) = map Calls.id l).
  { intros f l H. rewrite map_map. apply map_ext. exact H. }
  assert (K2 : forall (f : CallAnalysis.row -> CallAnalysis.row) l,
             (forall x, CallAnalysis.call_id (f x) = CallAnalysis.call_id x) ->
             map CallAnalysis.call_id (map f l) = map CallAnalysis.call_id l).
  { intros f l H. rewrite map_map. apply map_ext. exact H. }
  assert (N : forall (A : Type) (l : list A),
             exists new, l = (l ++ new)%list /\ (List.length new <= 1)%nat).
  { intros A l. exists []. rewrite app_nil_r. split; [reflexivity | cbn; lia]. }
  assert (O : forall (A : Type) (l : list A) (x : A),
             exists new, (l ++ [x])%list = (l ++ new)%list
                         /\ (List.length new <= 1)%nat).
  { intros A l x. exists [x]. split; [reflexivity | cbn; lia]. }
  unfold_run. sym.
  repeat (branch; sym).
  all: repeat split; try apply N; try apply O.
  all: try (rewrite K2; [rewrite ?map_app; first [apply N | apply O] |
                         intro x; destruct (sql_eq _ _); reflexivity]).
  all: try (rewrite ?map_app; cbn [map]; first [apply N | apply O]).
  all: try (apply K1; intro x; destruct (sql_eq _ _); reflexivity).
Qed.

(** What a successful invocation that fulfils the booking condition
    leaves in the tables. *)
Lemma run_success_booking (E : Env) (data : CallEnded.t) (db : Tables)
    (seq : Z) :
  let sd := CallEnded.structuredData data in
  let t := database (fst (run E data db seq)) in
  snd (run E data db seq) = Normal tt ->
  bookingRequested data = true ->
  exists b,
    bookings t = (bookings db ++ [b])%list
    /\ (Bookings.call_id b = param (CallEnded.callId data)
        /\ Bookings.workshop_id b = param (CallEnded.workshopId data)
        /\ Bookings.status b = "confirmed"
        /\ Bookings.issue_summary b = param (StructuredData.issue_summary sd)
        /\ Bookings.issue_category b
           = param (or_else (StructuredData.issue_category sd) (VStr "other"))
        /\ Bookings.urgency b
           = param (or_else (StructuredData.urgency sd) (VStr "normal"))
        /\ Bookings.scheduled_at b
           = parseDateTime (clock E) (StructuredData.preferred_date sd)
                           (StructuredData.preferred_time sd))
    /\ match customersOf (CallEnded.workshopId data)
                         (StructuredData.customer_phone sd) db with
       | [] =>
           customers t
           = (customers db ++
               [{| Customers.id := seq;
                   Customers.workshop_id := param (CallEnded.workshopId data);
                   Customers.name := param (StructuredData.customer_name sd);
                   Customers.phone := param (StructuredData.customer_phone sd);
                   Customers.email := param (StructuredData.customer_email sd) |}])%list
           /\ Bookings.customer_id b = seq
       | c :: _ =>
           customers t = customers db
           /\ Bookings.customer_id b = Customers.id c
       end
    /\ (if truthy (StructuredData.vehicle_make sd)
           && truthy (StructuredData.vehicle_model sd)
        then exists v,
               vehicles t = (vehicles db ++ [v])%list
               /\ Vehicles.customer_id v = Bookings.customer_id b
               /\ Vehicles.make v = param (StructuredData.vehicle_make sd)
               /\ Vehicles.model v = param (StructuredData.vehicle_model sd)
               /\ Vehicles.year v = param (StructuredData.vehicle_year sd)
               /\ Bookings.vehicle_id b = Some (Vehicles.id v)
        else vehicles t = vehicles db /\ Bookings.vehicle_id b = None).
Proof.
  intros sd t. subst sd t. unfold bookingRequested.
  unfold_run. unfold customersOf. sym.
  intros Hok Hc. revert Hok. rewrite Hc. sym.
  repeat (branch; sym); try discriminate; intros _.
  all: eexists; split; [reflexivity|]; split; [repeat split|]; split;
    [repeat split | try (repeat split; fail)].
  all: eexists; repeat split.
Qed.

(** X9: a confirmed booking for which no category, urgency or date was
    extracted is stored with category "other", urgency "normal" and
    status "confirmed", scheduled for tomorrow at 10:00 local time,
    whatever the preferred time says. *)
Theorem booking_defaults (E : Env) (data : CallEnded.t) (db : Tables)
    (seq : Z) :
  let sd := CallEnded.structuredData data in
  snd (run E data db seq) = Normal tt ->
  bookingRequested data = true ->
  clockInRange (clock E) ->
  truthy (StructuredData.issue_category sd) = false ->
  truthy (StructuredData.urgency sd) = false ->
  truthy (StructuredData.preferred_date sd) = false ->
  exists b,
    bookings (database (fst (run E data db seq))) = (bookings db ++ [b])%list
    /\ Bookings.status b = "confirmed"
    /\ Bookings.issue_category b = VStr "other"
    /\ Bookings.urgency b = VStr "normal"
    /\ Bookings.scheduled_at b
       = localInstant (clock E) (today (clock E) + 1) 10 0.
Proof.
  intros sd Hok Hc Hclock Hcat Hurg Hdate.
  destruct (run_success_booking E data db seq Hok Hc)
    as (b & Hb & (_ & _ & Hst & _ & Hca & Hur & Hsch) & _).
  fold sd in Hca, Hur, Hsch.
  exists b. repeat split; try assumption.
  - rewrite Hca. unfold or_else. rewrite Hcat. reflexivity.
  - rewrite Hur. unfold or_else. rewrite Hurg. reflexivity.
  - rewrite Hsch. unfold parseDateTime. rewrite Hdate. cbn [negb].
    apply ParseDateFacts.tomorrowAtTen_spec. exact Hclock.
Qed.

Lemma booking_defaults_witness :
  exists b,
    bookings (database (fst (run steadyEnv
                                 (sampleEvent "c1" undatedStructuredData)
                                 sampleDb 1)))
    = (bookings sampleDb ++ [b])%list
    /\ Bookings.status b = "confirmed"
    /\ Bookings.issue_category b = VStr "other"
    /\ Bookings.urgency b = VStr "normal"
    /\ Bookings.scheduled_at b
       = localInstant utcClock (today utcClock + 1) 10 0.
Proof.
  apply (booking_defaults steadyEnv (sampleEvent "c1" undatedStructuredData)
           sampleDb 1); try reflexivity.
  apply Z.leb_le. reflexivity.
Defined.

(** X10: a successful booking whose structured data has both a vehicle make
    and a model appends exactly one vehicle, owned by the customer of
    the booking and referenced by it, without looking for an existing
    one; with either of them missing no vehicle is stored and the
    booking has none. *)
Theorem booking_vehicle (E : Env) (data : CallEnded.t) (db : Tables)
    (seq : Z) :
  let sd := CallEnded.structuredData data in
  let t := database (fst (run E data db seq)) in
  snd (run E data db seq) = Normal tt ->
  bookingRequested data = true ->
  exists b,
    bookings t = (bookings db ++ [b])%list
    /\ (if truthy (StructuredData.vehicle_make sd)
           && truthy (StructuredData.vehicle_model sd)
        then exists v,
               vehicles t = (vehicles db ++ [v])%list
               /\ Vehicles.customer_id v = Bookings.customer_id b
               /\ Vehicles.make v = param (StructuredData.vehicle_make sd)
               /\ Vehicles.model v = param (StructuredData.vehicle_model sd)
               /\ Vehicles.year v = param (StructuredData.vehicle_year sd)
               /\ Bookings.vehicle_id b = Some (Vehicles.id v)
        else vehicles t = vehicles db /\ Bookings.vehicle_id b = None).
Proof.
  intros sd t Hok Hc.
  destruct (run_success_booking E data db seq Hok Hc) as (b & Hb & _ & _ & Hv).
  exists b. split; assumption.
Qed.

Lemma booking_vehicle_witness :
  exists b,
    bookings (database (fst (run steadyEnv
                                 (sampleEvent "c1" undatedStructuredData)
                                 sampleDb 1)))
    = (bookings sampleDb ++ [b])%list
    /\ vehicles (database (fst (run steadyEnv
                                    (sampleEvent "c1" undatedStructuredData)
                                    sampleDb 1)))
       = vehicles sampleDb
    /\ Bookings.vehicle_id b = None.
Proof.
  destruct (booking_vehicle steadyEnv (sampleEvent "c1" undatedStructuredData)
              sampleDb 1 eq_refl eq_refl) as (b & Hb & Hv).
  exists b. exact (conj Hb Hv).
Defined.

(** X11: every booking has its customer: after a successful booking the
    customer id of the new booking is the id of a customer row in the
    tables, either the first one the lookup by workshop and phone found,
    left as it was, or the one row inserted with the name, phone and
    email of the call. *)
Theorem booking_customer_resolved (E : Env) (data : CallEnded.t)
    (db : Tables) (seq : Z) :
  let sd := CallEnded.structuredData data in
  let t := database (fst (run E data db seq)) in
  snd (run E data db seq) = Normal tt ->
  bookingRequested data = true ->
  exists b c,
    bookings t = (bookings db ++ [b])%list
    /\ In c (customers t)
    /\ Customers.id c = Bookings.customer_id b
    /\ ((hd_error (customersOf (CallEnded.workshopId data)
                               (StructuredData.customer_phone sd) db) = Some c
         /\ customers t = customers db)
        \/ (customersOf (CallEnded.workshopId data)
                        (StructuredData.customer_phone sd) db = []
            /\ customers t = (customers db ++ [c])%list
            /\ Customers.workshop_id c = param (CallEnded.workshopId data)
            /\ Customers.name c = param (StructuredData.customer_name sd)
            /\ Customers.phone c = param (StructuredData.customer_phone sd)
            /\ Customers.email c = param (StructuredData.customer_email sd))).
Proof.
  intros sd t Hok Hc.
  destruct (run_success_booking E data db seq Hok Hc) as (b & Hb & _ & Hcu & _).
  fold sd t in Hb, Hcu.
  destruct (customersOf (CallEnded.workshopId data)
              (StructuredData.customer_phone sd) db) as [|c hits] eqn:Hhits.
  - destruct Hcu as [Hcs Hid]. eexists b, _. split; [exact Hb|]. split.
    + rewrite Hcs. apply in_or_app. right. left. reflexivity.
    + split; [symmetry; exact Hid|]. right. repeat split. exact Hcs.
  - destruct Hcu as [Hcs Hid]. exists b, c. split; [exact Hb|]. split.
    + rewrite Hcs.
      assert (Hin : In c (customersOf (CallEnded.workshopId data)
                            (StructuredData.customer_phone sd) db)).
      { rewrite Hhits. left. reflexivity. }
      unfold customersOf in Hin. apply filter_In in Hin. tauto.
    + split; [symmetry; exact Hid|]. left. split; [reflexivity | exact Hcs].
Qed.

Lemma booking_customer_resolved_witness :
  exists b c,
    bookings (database (fst (run steadyEnv
                                 (sampleEvent "c1" sampleStructuredData)
                                 sampleDb 1)))
    = (bookings sampleDb ++ [b])%list
    /\ In c (customers (database (fst (run steadyEnv
                                           (sampleEvent "c1" sampleStructuredData)
                                           sampleDb 1))))
    /\ Customers.id c = Bookings.customer_id b.
Proof.
  destruct (booking_customer_resolved steadyEnv
              (sampleEvent "c1" sampleStructuredData) sampleDb 1
              eq_refl eq_refl) as (b & c & Hb & Hin & Hid & _).
  exists b, c. auto.
Defined.

(** The analysis rows after a successful invocation: one more than
    before, for the call of the event; and when a booking was created,
    every analysis row of that call, the new one and those of earlier
    deliveries alike, is flagged booking-created. *)
Lemma run_success_analysis (E : Env) (data : CallEnded.t) (db : Tables)
    (seq : Z) :
  let t := database (fst (run E data db seq)) in
  snd (run E data db seq) = Normal tt ->
  map CallAnalysis.call_id (call_analysis t)
  = (map CallAnalysis.call_id (call_analysis db)
     ++ [param (CallEnded.callId data)])%list
  /\ (bookingRequested data = true ->
      Forall (fun r => sql_eq (CallAnalysis.call_id r)
                              (param (CallEnded.callId data)) = true ->
                       CallAnalysis.booking_created r = VBool true)
             (call_analysis t)).
Proof.
  assert (K : forall (f : CallAnalysis.row -> CallAnalysis.row) l,
             (forall x, CallAnalysis.call_id (f x) = CallAnalysis.call_id x) ->
             map CallAnalysis.call_id (map f l) = map CallAnalysis.call_id l).
  { intros f l H. rewrite map_map. apply map_ext. exact H. }
  assert (F : forall (c : value) (g : CallAnalysis.row -> CallAnalysis.row) l,
             (forall x, CallAnalysis.booking_created (g x) = VBool true) ->
             Forall (fun r => sql_eq (CallAnalysis.call_id r) c = true ->
                              CallAnalysis.booking_created r = VBool true)
                    (map (fun r => if sql_eq (CallAnalysis.call_id r) c
                                   then g r else r) l)).
  { intros c g l Hg. apply Forall_forall. intros r Hin.
    apply in_map_iff in Hin as (x & Hx & _).
    destruct (sql_eq (CallAnalysis.call_id x) c) eqn:Ex; subst r.
    - intros _. apply Hg.
    - rewrite Ex. discriminate. }
  unfold bookingRequested. unfold_run. sym.
  repeat (branch; sym); try discriminate; intros _.
  all: split;
    [ try (rewrite K; [|intro x; destruct (sql_eq _ _); reflexivity]);
      rewrite map_app; reflexivity
    | try discriminate; intros _;
      apply (F (param (CallEnded.callId data))
               (fun r => {| CallAnalysis.call_id := CallAnalysis.call_id r;
                            CallAnalysis.structured_data :=
                              CallAnalysis.structured_data r;
                            CallAnalysis.customer_name :=
                              CallAnalysis.customer_name r;
                            CallAnalysis.customer_phone :=
                              CallAnalysis.customer_phone r;
                            CallAnalysis.vehicle_make :=
                              CallAnalysis.vehicle_make r;
                            CallAnalysis.vehicle_model :=
                              CallAnalysis.vehicle_model r;
                            CallAnalysis.issue_keywords :=
                              CallAnalysis.issue_keywords r;
                            CallAnalysis.sentiment := CallAnalysis.sentiment r;
                            CallAnalysis.booking_created := VBool true |}));
      reflexivity ].
Qed.

(** X12: processing is not idempotent: when the same call-ended event is
    delivered and processed twice, both times successfully, the call
    ends up with two analysis rows and, if it asks for a booking, two
    bookings. *)
Theorem redelivery_duplicates (E1 E2 : Env) (data : CallEnded.t)
    (db : Tables) (seq1 seq2 : Z) :
  let t1 := database (fst (run E1 data db seq1)) in
  let t2 := database (fst (run E2 data t1 seq2)) in
  snd (run E1 data db seq1) = Normal tt ->
  snd (run E2 data t1 seq2) = Normal tt ->
  map CallAnalysis.call_id (call_analysis t2)
  = (map CallAnalysis.call_id (call_analysis db)
     ++ [param (CallEnded.callId data); param (CallEnded.callId data)])%list
  /\ (bookingRequested data = true ->
      exists b1 b2,
        bookings t2 = (bookings db ++ [b1; b2])%list
        /\ Bookings.call_id b1 = param (CallEnded.callId data)
        /\ Bookings.call_id b2 = param (CallEnded.callId data)).
Proof.
  intros t1 t2 H1 H2. split.
  - destruct (run_success_analysis E2 data t1 seq2 H2) as [A2 _].
    destruct (run_success_analysis E1 data db seq1 H1) as [A1 _].
    fold t1 in A1, A2. fold t2 in A2.
    rewrite A2, A1, <- app_assoc. reflexivity.
  - intro Hc.
    destruct (run_success_booking E1 data db seq1 H1 Hc)
      as (b1 & Hb1 & (Hc1 & _) & _).
    destruct (run_success_booking E2 data t1 seq2 H2 Hc)
      as (b2 & Hb2 & (Hc2 & _) & _).
    fold t1 in Hb1, Hb2. fold t2 in Hb2.
    exists b1, b2. rewrite Hb2, Hb1, <- app_assoc. auto.
Qed.

Lemma redelivery_duplicates_witness :
  let t1 := database (fst (run steadyEnv (sampleEvent "c1" sampleStructuredData)
                               sampleDb 1)) in
  let t2 := database (fst (run steadyEnv (sampleEvent "c1" sampleStructuredData)
                               t1 4)) in
  map CallAnalysis.call_id (call_analysis t2) = [VStr "c1"; VStr "c1"]
  /\ List.length (bookings t2) = 2%nat.
Proof.
  intros t1 t2.
  destruct (redelivery_duplicates steadyEnv steadyEnv
              (sampleEvent "c1" sampleStructuredData) sampleDb 1 4
              eq_refl eq_refl) as [Ha Hb].
  split; [exact Ha|].
  destruct (Hb eq_refl) as (b1 & b2 & H & _).
  fold t1 t2 in H. rewrite H. reflexivity.
Defined.

(** X13: after a successful booking every analysis row of the call is
    flagged booking-created, rows of earlier deliveries included. *)
Theorem booking_flags_all_analyses (E : Env) (data : CallEnded.t)
    (db : Tables) (seq : Z) :
  snd (run E data db seq) = Normal tt ->
  bookingRequested data = true ->
  Forall (fun r => sql_eq (CallAnalysis.call_id r)
                          (param (CallEnded.callId data)) = true ->
                   CallAnalysis.booking_created r = VBool true)
         (call_analysis (database (fst (run E data db seq)))).
Proof.
  intros Hok Hc. exact (proj2 (run_success_analysis E data db seq Hok) Hc).
Qed.

Lemma booking_flags_all_analyses_witness :
  map CallAnalysis.booking_created
    (call_analysis
       (database (fst (run steadyEnv (sampleEvent "c1" sampleStructuredData)
                           sampleDb 1))))
  = [VBool true]
  /\ Forall (fun r => sql_eq (CallAnalysis.call_id r) (param (VStr "c1")) = true ->
                      CallAnalysis.booking_created r = VBool true)
            (call_analysis
               (database (fst (run steadyEnv
                                   (sampleEvent "c1" sampleStructuredData)
                                   sampleDb 1)))).
Proof.
  split; [reflexivity|].
  exact (booking_flags_all_analyses steadyEnv
           (sampleEvent "c1" sampleStructuredData) sampleDb 1 eq_refl eq_refl).
Defined.


End ProcessExtras.

(* ================================================================== *)
(** * The handlers and the call routes *)
(* ================================================================== *)

Module HandlerExtras.
Import JS Signature Pool Handlers Samples.

Ltac unfold_handler :=
  unfold callStarted, callEnded, verifyInProduction, destructure, metadataOf,
    callOf, updateCallStarted, Handlers.processCallEnded, fresh, replies,
    Pool.tryCatch, Pool.bind, Pool.ret, Pool.throw, Pool.lift, Pool.console,
    Pool.respond, Pool.query, headersSent, emit, setStore.

Ltac hsym := cbn -[Webhook.processCallEnded Webhook.param Webhook.sql_eq
                   verifyVapiSignature callEndedData Z.ltb].

Ltac hbranch :=
  match goal with
  | |- context [production ?C] =>
      let F := fresh "F" in destruct (production C) eqn:F
  | |- context [verifyVapiSignature ?r ?n ?k ?q] =>
      let F := fresh "V" in
      destruct (verifyVapiSignature r n k q) as [[]|] eqn:F
  | |- context [body ?q] =>
      let F := fresh "B" in destruct (body q) as [?p|] eqn:F
  | |- context [Payload.metadata ?p] =>
      let F := fresh "M" in destruct (Payload.metadata p) as [?m|] eqn:F
  | |- context [Payload.call ?p] =>
      let F := fresh "K" in destruct (Payload.call p) as [?c|] eqn:F
  | |- context [poolFails ?P ?s ?q] =>
      let F := fresh "F" in destruct (poolFails P s q) eqn:F
  | |- context [Z.ltb 100 ?x] =>
      let F := fresh "L" in destruct (Z.ltb 100 x) eqn:F
  | |- context [Webhook.processCallEnded ?E ?d ?s] =>
      let F := fresh "R" in
      destruct (Webhook.processCallEnded E d s) as [?st [[]|?e]] eqn:F
  end.


(** X15: in production a request that fails verification is answered with
    status 200 and the error message, by either webhook, and reaches
    neither the pool nor call-ended processing; outside production the
    signature headers are not looked at. *)
Theorem webhooks_verification_gate (C D : Config) (req req' : WebhookRequest)
    (s : Store) (seq : Z) (e : string) :
  production C = true ->
  verifyVapiSignature (runtime C) (nowMs C) (secret C) req = Throw e ->
  production D = false ->
  body req' = body req ->
  callStarted C req (fresh s seq)
  = ({| store := s; seqNo := seq;
        log := [HConsole Webhook.Error "Webhook error";
                HReply 200 (ReceivedWithError e)] |}, Normal tt)
  /\ callEnded C req (fresh s seq)
     = ({| store := s; seqNo := seq;
           log := [HConsole Webhook.Error "Webhook processing error";
                   HReply 200 (ReceivedWithError e)] |}, Normal tt)
  /\ callStarted D req' (fresh s seq) = callStarted D req (fresh s seq)
  /\ callEnded D req' (fresh s seq) = callEnded D req (fresh s seq).
Proof.
  intros HC HV HD HB. unfold_handler.
  rewrite HC, HV, HD, HB. hsym. repeat split.
Qed.

(** X16: when the call-started handler answers {received: true}, every call
    with the id of the metadata is in progress, whatever its status
    was before (a completed call included), with the answer time set
    and its other columns as before; the other calls, the other tables
    and the workshops are as they were. *)
Theorem callStarted_marks_in_progress (C : Config) (req : WebhookRequest)
    (p : Payload.t) (m : Metadata.t) (s : Store) (seq : Z) :
  let sv := fst (callStarted C req (fresh s seq)) in
  body req = Some p ->
  Payload.metadata p = Some m ->
  replies sv = [HReply 200 Received] ->
  Forall2
    (fun old new =>
       if Webhook.sql_eq (Webhook.Calls.id old)
                         (Webhook.param (Metadata.call_id m)) then
         Webhook.Calls.status new = "in-progress"
         /\ Webhook.Calls.answered_at new = Some (dbNow (pool C))
         /\ Webhook.Calls.id new = Webhook.Calls.id old
         /\ Webhook.Calls.workshop_id new = Webhook.Calls.workshop_id old
         /\ Webhook.Calls.from_number new = Webhook.Calls.from_number old
         /\ Webhook.Calls.to_number new = Webhook.Calls.to_number old
         /\ Webhook.Calls.vapi_call_id new = Webhook.Calls.vapi_call_id old
         /\ Webhook.Calls.started_at new = Webhook.Calls.started_at old
         /\ Webhook.Calls.ended_at new = Webhook.Calls.ended_at old
         /\ Webhook.Calls.duration_seconds new
            = Webhook.Calls.duration_seconds old
         /\ Webhook.Calls.cost_usd new = Webhook.Calls.cost_usd old
         /\ Webhook.Calls.recording_url new = Webhook.Calls.recording_url old
         /\ Webhook.Calls.transcript new = Webhook.Calls.transcript old
       else new = old)
    (Webhook.calls (tables s)) (Webhook.calls (tables (store sv)))
  /\ Webhook.call_analysis (tables (store sv)) = Webhook.call_analysis (tables s)
  /\ Webhook.customers (tables (store sv)) = Webhook.customers (tables s)
  /\ Webhook.vehicles (tables (store sv)) = Webhook.vehicles (tables s)
  /\ Webhook.bookings (tables (store sv)) = Webhook.bookings (tables s)
  /\ workshops (store sv) = workshops s.
Proof.
  intros sv HB HM. subst sv. unfold_handler. rewrite HB. hsym. rewrite HM. hsym.
  repeat (hbranch; hsym); try discriminate; intros _.
  all: split; [|repeat split].
  all: apply ProcessExtras.Forall2_map_self; intro x;
    destruct (Webhook.sql_eq (Webhook.Calls.id x)
                (Webhook.param (Metadata.call_id m)));
    cbn; repeat split.
Qed.

Lemma filter_isReply_client (l : list Webhook.Event) :
  filter isReply (map HClient l) = [].
Proof. induction l; cbn; auto. Qed.

(** X17: the call-ended handler answers before it touches the database: no
    event of the pool or of call-ended processing precedes the first
    answer, and whenever processing was started the answer was
    {received: true} with status 200. *)
Theorem callEnded_acknowledges_first (C : Config) (req : WebhookRequest)
    (s : Store) (seq : Z) :
  let sv := fst (callEnded C req (fresh s seq)) in
  existsb isDatabaseEvent (beforeReply (log sv)) = false
  /\ (existsb isDatabaseEvent (log sv) = true ->
      hd_error (replies sv) = Some (HReply 200 Received)).
Proof.
  unfold_handler. hsym.
  repeat (hbranch; hsym); split; try reflexivity; try discriminate.
Qed.

(** X18: what the caller of the call-ended webhook learns about processing:
    nothing.  For a request that passes the gate and has metadata, the
    one answer is {received: true}; the tables afterwards are those
    call-ended processing leaves; and when processing fails, or the
    body has no call object, the second answer the handler attempts is
    refused and that error is what escapes the handler. *)
Theorem callEnded_outcome (C : Config) (req : WebhookRequest)
    (p : Payload.t) (m : Metadata.t) (s : Store) (seq : Z) :
  let sv := fst (callEnded C req (fresh s seq)) in
  let r := snd (callEnded C req (fresh s seq)) in
  (production C = true ->
   verifyVapiSignature (runtime C) (nowMs C) (secret C) req = Normal true) ->
  body req = Some p ->
  Payload.metadata p = Some m ->
  replies sv = [HReply 200 Received]
  /\ workshops (store sv) = workshops s
  /\ match Payload.call p with
     | None => r = Throw errHeadersSent /\ tables (store sv) = tables s
     | Some c =>
         let done := Webhook.run (processing C) (callEndedData p m c)
                                 (tables s) seq in
         tables (store sv) = Webhook.database (fst done)
         /\ (snd done = Normal tt -> r = Normal tt)
         /\ (forall e, snd done = Throw e ->
                       r = Throw errHeadersSent
                       /\ tables (store sv) = tables s)
     end.
Proof.
  intros sv r HV HB HM. subst sv r.
  unfold_handler. rewrite HB.
  destruct (production C) eqn:HP; [rewrite (HV eq_refl)|]; hsym;
    rewrite HM; hsym.
  all: destruct (Payload.call p) as [c|]; hsym;
    [|repeat split; reflexivity].
  all: pose proof (ProcessExtras.run_failure_keeps_tables (processing C)
                     (callEndedData p m c) (tables s) seq) as Hkeep;
    unfold Webhook.run in *;
    destruct (Webhook.processCallEnded (processing C) (callEndedData p m c)
                (Webhook.initial (tables s) seq)) as [st [[]|e]];
    hsym; rewrite ?filter_app, ?filter_isReply_client; cbn [filter isReply app];
    repeat split; try reflexivity; try discriminate.
  all: match goal with H : Throw _ = Throw _ |- _ => exact (Hkeep _ H) end.
Qed.

Lemma webhooks_verification_gate_witness :
  callStarted (configOf true Webhook.steadyEnv)
    (unsignedRequest (Some (samplePayload "c1" true))) (fresh sampleStore 1)
  = ({| store := sampleStore; seqNo := 1;
        log := [HConsole Webhook.Error "Webhook error";
                HReply 200 (ReceivedWithError errMissing)] |}, Normal tt)
  /\ callEnded (configOf true Webhook.steadyEnv)
       (unsignedRequest (Some (samplePayload "c1" true))) (fresh sampleStore 1)
     = ({| store := sampleStore; seqNo := 1;
           log := [HConsole Webhook.Error "Webhook processing error";
                   HReply 200 (ReceivedWithError errMissing)] |}, Normal tt).
Proof.
  pose proof (webhooks_verification_gate (configOf true Webhook.steadyEnv)
                (configOf false Webhook.steadyEnv)
                (unsignedRequest (Some (samplePayload "c1" true)))
                {| x_vapi_signature := Some "forged";
                   x_vapi_timestamp := Some "0";
                   body := Some (samplePayload "c1" true) |}
                sampleStore 1 errMissing eq_refl eq_refl eq_refl eq_refl) as T.
  exact (conj (proj1 T) (proj1 (proj2 T))).
Defined.

Lemma callStarted_marks_in_progress_witness :
  let sv := fst (callStarted (configOf false Webhook.steadyEnv)
                   (unsignedRequest (Some (samplePayload "c2" false)))
                   (fresh sampleStore 1)) in
  replies sv = [HReply 200 Received]
  /\ Webhook.bookings (tables (store sv)) = Webhook.bookings (tables sampleStore)
  /\ workshops (store sv) = workshops sampleStore.
Proof.
  intro sv.
  pose proof (callStarted_marks_in_progress (configOf false Webhook.steadyEnv)
                (unsignedRequest (Some (samplePayload "c2" false)))
                (samplePayload "c2" false)
                {| Metadata.call_id := VStr "c2";
                   Metadata.workshop_id := VStr "w1" |}
                sampleStore 1 eq_refl eq_refl eq_refl) as T.
  split; [reflexivity|].
  exact (proj2 (proj2 (proj2 (proj2 T)))).
Defined.

Lemma callEnded_outcome_witness :
  let C := configOf false (Webhook.rejecting Webhook.isInsertBooking) in
  let req := unsignedRequest (Some (samplePayload "c1" true)) in
  replies (fst (callEnded C req (fresh sampleStore 1)))
  = [HReply 200 Received]
  /\ snd (callEnded C req (fresh sampleStore 1)) = Throw errHeadersSent
  /\ tables (store (fst (callEnded C req (fresh sampleStore 1))))
     = tables sampleStore.
Proof.
  intros C req.
  pose proof (callEnded_outcome C req (samplePayload "c1" true)
                {| Metadata.call_id := VStr "c1";
                   Metadata.workshop_id := VStr "w1" |}
                sampleStore 1 (fun H => False_ind _ (diff_false_true H))
                eq_refl eq_refl) as T.
  destruct T as (T1 & _ & T3).
  split; [exact T1|].
  exact (proj2 (proj2 T3) Webhook.errQuery eq_refl).
Defined.



End HandlerExtras.

Module RouteExtras.
Import JS Pool CallsRoutes Samples.

Ltac unfold_route :=
  unfold inbound, selectActiveWorkshop, insertCall, fresh, replies,
    Pool.tryCatch, Pool.bind, Pool.ret, Pool.throw, Pool.console,
    Pool.respond, Pool.query, headersSent, emit, setStore.

Ltac rsym := cbn -[Webhook.param Webhook.sql_eq activeWorkshops Z.ltb].

Ltac rbranch :=
  match goal with
  | |- context [poolFails ?P ?s ?q] =>
      let F := fresh "F" in destruct (poolFails P s q) eqn:F
  | |- context [Z.ltb 100 ?x] =>
      let F := fresh "L" in destruct (Z.ltb 100 x) eqn:F
  | |- context [match activeWorkshops ?n ?s with _ => _ end] =>
      let F := fresh "W" in destruct (activeWorkshops n s) as [|?w ?ws] eqn:F
  end.

(** X20: every inbound request is answered exactly once and no error
    escapes; the tables change only together with a 200 answer, and
    then by one more call; a 404 or a 500 (whose body is the same
    whatever went wrong) leaves them as they were. *)
Theorem inbound_answers_once (P : Pool.Env) (body : option InboundBody.t)
    (s : Store) (seq : Z) :
  let sv := fst (inbound P body (fresh s seq)) in
  snd (inbound P body (fresh s seq)) = Normal tt
  /\ ((replies sv = [HReply 404 WorkshopNotFound] /\ store sv = s)
      \/ (replies sv = [HReply 500 InternalServerError] /\ store sv = s)
      \/ (exists call_id workshop_name,
            replies sv = [HReply 200 (CallConnected call_id workshop_name)]
            /\ List.length (Webhook.calls (tables (store sv)))
               = S (List.length (Webhook.calls (tables s))))).
Proof.
  unfold_route. destruct body as [b|]; rsym.
  2: { split; [reflexivity | right; left; split; reflexivity]. }
  repeat (rbranch; rsym).
  all: split; [reflexivity|].
  all: first [ left; split; reflexivity
             | right; left; split; reflexivity
             | right; right; eexists; eexists; split;
               [reflexivity | rewrite length_app, Nat.add_comm; reflexivity] ].
Qed.

(** X21: a dialed number that no active workshop has -- unknown, belonging
    to an inactive workshop only, or missing from the body -- is
    answered with 404, and no call is inserted. *)
Theorem inbound_unknown_number (P : Pool.Env) (b : InboundBody.t)
    (s : Store) (seq : Z) :
  let sv := fst (inbound P (Some b) (fresh s seq)) in
  poolFails P s (SelectActiveWorkshop (InboundBody.to b)) = false ->
  activeWorkshops (InboundBody.to b) s = [] ->
  snd (inbound P (Some b) (fresh s seq)) = Normal tt
  /\ replies sv = [HReply 404 WorkshopNotFound]
  /\ store sv = s
  /\ existsb isInsertCallEvent (log sv) = false.
Proof.
  intros sv HF HW. subst sv. unfold_route. rsym. rewrite HF. rsym.
  rewrite HW. destruct (Z.ltb 100 _); repeat split.
Qed.

Lemma inbound_unknown_number_witness :
  replies (fst (inbound steadyPool (Some (sampleInbound "555-0198"))
                        (fresh sampleStore 1)))
  = [HReply 404 WorkshopNotFound]
  /\ store (fst (inbound steadyPool (Some (sampleInbound "555-0198"))
                         (fresh sampleStore 1)))
     = sampleStore.
Proof.
  pose proof (inbound_unknown_number steadyPool (sampleInbound "555-0198")
                sampleStore 1 eq_refl eq_refl) as T.
  exact (conj (proj1 (proj2 T)) (proj1 (proj2 (proj2 T)))).
Defined.

(** X22: a dialed number of an active workshop, with the database accepting
    both statements: exactly one call is appended, in state
    "initiated", for the first such workshop, with the numbers and the
    call sid of the request and the start time of the database; the
    answer is 200 with the id of that call and the name of the
    workshop; nothing else changes. *)
Theorem inbound_connects (P : Pool.Env) (b : InboundBody.t) (s : Store)
    (seq : Z) (w : Workshops.row) (others : list Workshops.row) :
  let sv := fst (inbound P (Some b) (fresh s seq)) in
  poolFails P s (SelectActiveWorkshop (InboundBody.to b)) = false ->
  activeWorkshops (InboundBody.to b) s = w :: others ->
  poolFails P s (InsertCall (Workshops.id w) (InboundBody.from b)
                            (InboundBody.to b) (InboundBody.callSid b)
                            "initiated") = false ->
  exists call,
    snd (inbound P (Some b) (fresh s seq)) = Normal tt
    /\ replies sv
       = [HReply 200 (CallConnected (Webhook.Calls.id call) (Workshops.name w))]
    /\ Webhook.calls (tables (store sv))
       = (Webhook.calls (tables s) ++ [call])%list
    /\ Webhook.Calls.status call = "initiated"
    /\ Webhook.Calls.workshop_id call = Webhook.param (Workshops.id w)
    /\ Webhook.Calls.from_number call = Webhook.param (InboundBody.from b)
    /\ Webhook.Calls.to_number call = Webhook.param (InboundBody.to b)
    /\ Webhook.Calls.vapi_call_id call = Webhook.param (InboundBody.callSid b)
    /\ Webhook.Calls.started_at call = Some (dbNow P)
    /\ Webhook.Calls.id call = Webhook.Calls.id (callDefaults P s)
    /\ Webhook.call_analysis (tables (store sv))
       = Webhook.call_analysis (tables s)
    /\ Webhook.customers (tables (store sv)) = Webhook.customers (tables s)
    /\ Webhook.vehicles (tables (store sv)) = Webhook.vehicles (tables s)
    /\ Webhook.bookings (tables (store sv)) = Webhook.bookings (tables s)
    /\ workshops (store sv) = workshops s.
Proof.
  intros sv HF HW HI. subst sv. unfold_route. rsym. rewrite HF. rsym.
  rewrite HW.
  destruct (Z.ltb 100 (elapsed P s (SelectActiveWorkshop (InboundBody.to b))));
    rsym; rewrite HI; rsym;
    destruct (Z.ltb 100 _); rsym;
    match goal with
    | |- context [(Webhook.calls (tables s) ++ [?r])%list] => exists r
    end; repeat split.
Qed.

Lemma inbound_connects_witness :
  exists call,
    replies (fst (inbound steadyPool (Some (sampleInbound "555-0199"))
                          (fresh sampleStore 1)))
    = [HReply 200 (CallConnected (Webhook.Calls.id call)
                                 (VStr "Main Street Garage"))]
    /\ Webhook.Calls.status call = "initiated"
    /\ Webhook.Calls.workshop_id call = VStr "w1".
Proof.
  destruct (inbound_connects steadyPool (sampleInbound "555-0199") sampleStore 1
              (sampleWorkshop "w1" "555-0199" "active") []
              eq_refl eq_refl eq_refl)
    as (call & _ & H1 & _ & H3 & H4 & _).
  exists call. auto.
Defined.

(** X23: the list query is well formed in both of its variants: its
    placeholders are $1, $2, ... up to the number of parameters, the
    first parameter is the workshop id, and the text depends on the
    request only through whether a status filter was given. *)
Theorem listQuery_placeholders (workshopId limit offset status : value) :
  let q := listQuery workshopId limit offset status in
  placeholders (fst q) = map Z.of_nat (List.seq 1 (List.length (snd q)))
  /\ hd_error (snd q) = Some workshopId
  /\ fst q = fst (listQuery VNull VNull VNull (VBool (truthy status)))
  /\ List.length (snd q) = if truthy status then 4%nat else 3%nat.
Proof.
  unfold listQuery. destruct (truthy status); cbn [truthy fst snd];
    repeat split.
Qed.

End RouteExtras.
